(** * CareerStack: the LibreOffice headless conversion service

    A shallow embedding of [docker/libreoffice/conversion-service.py]:
    the converter class (supervisor, UNO bridge client, DOCX/HTML
    conversions, HTML post-processing) and the four Flask endpoints.

    The office suite, the file system and the clock are external to the
    program.  They are modelled by an explicit [World] (files, counters,
    clock) that every operation threads, by an [Office] oracle that answers
    each remote call, and by a chronological list of [event]s that every
    operation emits.  Python exceptions are values of type [exn]; a
    computation either returns a value or raises. *)

From Stdlib Require Import ZArith Ascii String List Lia Strings.Byte.
From stdpp Require Import base gmap strings list pretty.

Local Open Scope string_scope.
Set Warnings "-register-all".

(** ** Python [str] operations

    A Python [str] is represented by the string of its UTF-8 code units.
    The patterns searched and inserted by the program are ASCII, so
    [replace], [find], [in] and slicing between indices returned by [find]
    act on code units exactly as they act on code points. *)

Module PyStr.

(** [s.startswith(p)] *)
Fixpoint startswith (p s : string) : bool :=
  match p, s with
  | EmptyString, _ => true
  | String _ _, EmptyString => false
  | String a p', String b s' => if Ascii.eqb a b then startswith p' s' else false
  end.

(** [needle in s] *)
Fixpoint contains (needle s : string) : bool :=
  if startswith needle s then true
  else match s with
       | EmptyString => false
       | String _ s' => contains needle s'
       end.

Fixpoint find_from (needle s : string) (i : Z) : Z :=
  if startswith needle s then i
  else match s with
       | EmptyString => (-1)%Z
       | String _ s' => find_from needle s' (i + 1)%Z
       end.

(** [s.find(needle)]: the lowest index of an occurrence, or -1. *)
Definition find (needle s : string) : Z := find_from needle s 0%Z.

(** Index normalisation of a slice bound: negative bounds count from the
    end, and every bound is clamped to [0, len]. *)
Definition clamp (len i : Z) : Z :=
  if (i <? 0)%Z then Z.max 0 (len + i) else Z.min i len.

(** [s[a:b]] *)
Definition slice (s : string) (a b : Z) : string :=
  let len := Z.of_nat (String.length s) in
  let a' := clamp len a in
  let b' := clamp len b in
  String.substring (Z.to_nat a') (Z.to_nat (b' - a')) s.

(** Left-to-right replacement of the non-overlapping occurrences of a
    non-empty [old]: [skip] counts the characters of a match that are
    still to be dropped. *)
Fixpoint replace_go (old new : string) (skip : nat) (s : string) : string :=
  match s with
  | EmptyString => EmptyString
  | String c s' =>
      match skip with
      | S k => replace_go old new k s'
      | O =>
          if startswith old s
          then new +:+ replace_go old new (String.length old - 1) s'
          else String c (replace_go old new 0 s')
      end
  end.

(** With an empty [old], Python inserts [new] before every character and
    at the end. *)
Fixpoint replace_empty (new s : string) : string :=
  match s with
  | EmptyString => new
  | String c s' => new +:+ String c (replace_empty new s')
  end.

(** [s.replace(old, new)] *)
Definition replace (old new s : string) : string :=
  match old with
  | EmptyString => replace_empty new s
  | String _ _ => replace_go old new 0 s
  end.

(** [s] occurs inside [t]. *)
Definition occurs_in (s t : string) : Prop :=
  exists pre post, t = pre +:+ s +:+ post.

Definition nl : string := String "010"%char EmptyString.
Definition dq : string := String "034"%char EmptyString.

(** The lines of a multi-line literal, joined by newlines. *)
Fixpoint lines (ls : list string) : string :=
  match ls with
  | [] => EmptyString
  | [l] => l
  | l :: ls' => l +:+ nl +:+ lines ls'
  end.

(** [s.encode()]: the UTF-8 code units of the string. *)
Definition encode (s : string) : list byte := list_byte_of_string s.

End PyStr.

(** ** [hashlib.sha256]

    The library function, after FIPS 180-4, on 32-bit words held in [Z]
    with the wrap-around written out. *)

Module SHA256.
Local Open Scope Z_scope.

Definition wrap32 (x : Z) : Z := x mod 2 ^ 32.
Definition add32 (x y : Z) : Z := wrap32 (x + y).
Definition not32 (x : Z) : Z := Z.lxor x 4294967295.
Definition rotr (n x : Z) : Z :=
  Z.lor (Z.shiftr x n) (wrap32 (Z.shiftl x (32 - n))).
Definition shr (n x : Z) : Z := Z.shiftr x n.

Definition Ch (x y z : Z) : Z := Z.lxor (Z.land x y) (Z.land (not32 x) z).
Definition Maj (x y z : Z) : Z :=
  Z.lxor (Z.lxor (Z.land x y) (Z.land x z)) (Z.land y z).
Definition Sigma0 (x : Z) : Z := Z.lxor (Z.lxor (rotr 2 x) (rotr 13 x)) (rotr 22 x).
Definition Sigma1 (x : Z) : Z := Z.lxor (Z.lxor (rotr 6 x) (rotr 11 x)) (rotr 25 x).
Definition sigma0 (x : Z) : Z := Z.lxor (Z.lxor (rotr 7 x) (rotr 18 x)) (shr 3 x).
Definition sigma1 (x : Z) : Z := Z.lxor (Z.lxor (rotr 17 x) (rotr 19 x)) (shr 10 x).

Definition K : list Z :=
[ 1116352408; 1899447441; 3049323471; 3921009573; 961987163; 1508970993; 2453635748; 2870763221;
  3624381080; 310598401; 607225278; 1426881987; 1925078388; 2162078206; 2614888103; 3248222580;
  3835390401; 4022224774; 264347078; 604807628; 770255983; 1249150122; 1555081692; 1996064986;
  2554220882; 2821834349; 2952996808; 3210313671; 3336571891; 3584528711; 113926993; 338241895;
  666307205; 773529912; 1294757372; 1396182291; 1695183700; 1986661051; 2177026350; 2456956037;
  2730485921; 2820302411; 3259730800; 3345764771; 3516065817; 3600352804; 4094571909; 275423344;
  430227734; 506948616; 659060556; 883997877; 958139571; 1322822218; 1537002063; 1747873779;
  1955562222; 2024104815; 2227730452; 2361852424; 2428436474; 2756734187; 3204031479; 3329325298 ].

Definition H0 : list Z :=
[ 1779033703; 3144134277; 1013904242; 2773480762; 1359893119; 2600822924; 528734635; 1541459225 ].

(** The [n] low bytes of [x], most significant first. *)
Definition be_bytes (n : nat) (x : Z) : list Z :=
  List.map (fun i => (Z.shiftr x (8 * Z.of_nat i)) mod 256) (List.rev (List.seq 0 n)).

(** Padding: a 1 bit, zeros up to 56 modulo 64, the bit length on 8 bytes. *)
Definition pad (msg : list Z) : list Z :=
  let len := Z.of_nat (List.length msg) in
  let zeros := Z.to_nat ((55 - len) mod 64) in
  msg ++ [128] ++ List.repeat 0 zeros ++ be_bytes 8 (8 * len).

Fixpoint words (fuel : nat) (bs : list Z) : list Z :=
  match fuel, bs with
  | S n, b0 :: b1 :: b2 :: b3 :: rest =>
      (b0 * 16777216 + b1 * 65536 + b2 * 256 + b3) :: words n rest
  | _, _ => []
  end.

Fixpoint blocks (fuel : nat) (ws : list Z) : list (list Z) :=
  match fuel, ws with
  | S n, _ :: _ => List.firstn 16 ws :: blocks n (List.skipn 16 ws)
  | _, _ => []
  end.

Definition word_at (w : list Z) (i : nat) : Z := List.nth i w 0.

(** The message schedule: 16 block words extended to 64. *)
Fixpoint extend (n : nat) (w : list Z) : list Z :=
  match n with
  | O => w
  | S n' =>
      let t := List.length w in
      let x := add32 (add32 (sigma1 (word_at w (t - 2))) (word_at w (t - 7)))
                     (add32 (sigma0 (word_at w (t - 15))) (word_at w (t - 16))) in
      extend n' (w ++ [x])
  end.

Record regs := Regs { ra : Z; rb : Z; rc : Z; rd : Z; re : Z; rf : Z; rg : Z; rh : Z }.

Definition round (r : regs) (kw : Z * Z) : regs :=
  let '(k, w) := kw in
  let t1 := add32 (add32 (add32 (rh r) (Sigma1 (re r))) (add32 (Ch (re r) (rf r) (rg r)) k)) w in
  let t2 := add32 (Sigma0 (ra r)) (Maj (ra r) (rb r) (rc r)) in
  Regs (add32 t1 t2) (ra r) (rb r) (rc r) (add32 (rd r) t1) (re r) (rf r) (rg r).

Definition compress (h : regs) (block : list Z) : regs :=
  let r := List.fold_left round (List.combine K (extend 48 block)) h in
  Regs (add32 (ra h) (ra r)) (add32 (rb h) (rb r)) (add32 (rc h) (rc r))
       (add32 (rd h) (rd r)) (add32 (re h) (re r)) (add32 (rf h) (rf r))
       (add32 (rg h) (rg r)) (add32 (rh h) (rh r)).

Definition initial : regs :=
  Regs (word_at H0 0) (word_at H0 1) (word_at H0 2) (word_at H0 3)
       (word_at H0 4) (word_at H0 5) (word_at H0 6) (word_at H0 7).

(** [hashlib.sha256(msg).digest()] as 32 byte values. *)
Definition digest (msg : list byte) : list Z :=
  let bs := pad (List.map (fun b => Z.of_N (Byte.to_N b)) msg) in
  let ws := words (List.length bs) bs in
  let r := List.fold_left compress (blocks (List.length ws) ws) initial in
  List.concat (List.map (be_bytes 4)
    [ra r; rb r; rc r; rd r; re r; rf r; rg r; rh r]).

Definition hex_digit (d : Z) : ascii :=
  if d <? 10 then ascii_of_N (Z.to_N (48 + d)) else ascii_of_N (Z.to_N (87 + d)).

Fixpoint hex (bs : list Z) : string :=
  match bs with
  | [] => EmptyString
  | b :: bs' => String (hex_digit (b / 16)) (String (hex_digit (b mod 16)) (hex bs'))
  end.

(** [hashlib.sha256(msg).hexdigest()] *)
Definition hexdigest (msg : list byte) : string := hex (digest msg).

End SHA256.

(** ** Exceptions

    Every exception the program can meet is an instance of Python's
    [Exception]: exceptions of the UNO bridge, of the file system, of the
    interpreter and of the web framework.  [exn_str] is [str(e)]. *)

Inductive exn_class :=
| NoConnectException
| UnoException
| RecursionError
| AttributeError
| TypeError
| KeyError
| FileNotFoundError
| UnicodeDecodeError
| OSError
| HTTPException.

#[global] Instance exn_class_eq_dec : EqDecision exn_class.
Proof. solve_decision. Defined.

Record exn := Exn { exn_cls : exn_class; exn_str : string }.

(** ** JSON values, requests and responses

    A decoded JSON document and the dicts that [jsonify] serialises.
    Numbers are integers; the float of [time.time()] is the reading of the
    clock of the world. *)

Inductive json :=
| JNull
| JBool (b : bool)
| JNum (z : Z)
| JStr (s : string)
| JArr (items : list json)
| JObj (fields : list (string * json)).

(** [d[k]] on the items of a dict. *)
Fixpoint assoc (k : string) (fields : list (string * json)) : option json :=
  match fields with
  | [] => None
  | (k', v) :: rest => if String.eqb k k' then Some v else assoc k rest
  end.

Definition field (k : string) (v : json) : option json :=
  match v with
  | JObj fields => assoc k fields
  | _ => None
  end.

(** Python truth value of a decoded JSON document. *)
Definition truthy (v : json) : bool :=
  match v with
  | JNull => false
  | JBool b => b
  | JNum z => negb (z =? 0)%Z
  | JStr s => negb (String.eqb s "")
  | JArr items => match items with [] => false | _ => true end
  | JObj fields => match fields with [] => false | _ => true end
  end.

Definition is_str (s : string) (v : json) : bool :=
  match v with
  | JStr s' => String.eqb s' s
  | _ => false
  end.

(** [k in data]: key membership on a dict, substring test on a string,
    element test on a list, [TypeError] otherwise. *)
Definition py_in (k : string) (data : json) : exn + bool :=
  match data with
  | JObj fields => inr (match assoc k fields with Some _ => true | None => false end)
  | JStr s => inr (PyStr.contains k s)
  | JArr items => inr (existsb (is_str k) items)
  | _ => inl (Exn TypeError "argument is not iterable")
  end.

(** [data[k]] with a string key. *)
Definition py_getitem (k : string) (data : json) : exn + json :=
  match data with
  | JObj fields =>
      match assoc k fields with
      | Some v => inr v
      | None => inl (Exn KeyError k)
      end
  | JStr _ => inl (Exn TypeError "string indices must be integers")
  | JArr _ => inl (Exn TypeError "list indices must be integers or slices, not str")
  | _ => inl (Exn TypeError "object is not subscriptable")
  end.

(** [data.get(k, default)] *)
Definition py_get (k : string) (default : json) (data : json) : exn + json :=
  match data with
  | JObj fields => inr (match assoc k fields with Some v => v | None => default end)
  | _ => inl (Exn AttributeError "object has no attribute 'get'")
  end.

(** [str(v)] as an f-string renders it.  Strings nested in lists and dicts
    are shown between single quotes without escapes; the rendering only
    names a template file whose existence is tested. *)
Fixpoint py_repr (v : json) : string :=
  match v with
  | JNull => "None"
  | JBool true => "True"
  | JBool false => "False"
  | JNum z => pretty z
  | JStr s => "'" +:+ s +:+ "'"
  | JArr items =>
      "[" +:+ (fix go (l : list json) : string :=
                 match l with
                 | [] => ""
                 | [x] => py_repr x
                 | x :: l' => py_repr x +:+ ", " +:+ go l'
                 end) items +:+ "]"
  | JObj fields =>
      "{" +:+ (fix go (l : list (string * json)) : string :=
                 match l with
                 | [] => ""
                 | [(k, x)] => "'" +:+ k +:+ "': " +:+ py_repr x
                 | (k, x) :: l' => "'" +:+ k +:+ "': " +:+ py_repr x +:+ ", " +:+ go l'
                 end) fields +:+ "}"
  end.

Definition py_str (v : json) : string :=
  match v with
  | JStr s => s
  | _ => py_repr v
  end.

(** ** Paths and files

    A temporary file is named by the serial number of its creation and its
    suffix, which abstracts the random unique name [tempfile] picks.  All
    paths are absolute.  A file either decodes as UTF-8 text, and then
    holds the [str] a text-mode read returns, or does not decode. *)

Inductive path :=
| TmpPath (serial : nat) (suffix : string)
| AbsPath (name : string).

#[global] Instance path_eq_dec : EqDecision path.
Proof. solve_decision. Defined.

#[global] Instance path_countable : Countable path.
Proof.
  refine (inj_countable'
    (fun p => match p with TmpPath n s => inl (n, s) | AbsPath s => inr s end)
    (fun x => match x with inl (n, s) => TmpPath n s | inr s => AbsPath s end) _).
  intros [n s | s]; reflexivity.
Defined.

Definition path_str (p : path) : string :=
  match p with
  | TmpPath n suffix => "/tmp/tmp" +:+ pretty n +:+ suffix
  | AbsPath s => s
  end.

Inductive file_content :=
| Utf8Text (text : string)
| Undecodable (raw : list byte).

(** An uploaded file of a multipart form (werkzeug's [FileStorage]). *)
Record FileStorage := { filename : string; stream : file_content }.

(** What a handler reads of the request: the file parts of the form, in
    the order they were submitted, and the outcome of [request.get_json()]. *)
Record Request := {
  files : list (string * FileStorage);
  get_json : exn + json
}.

(** [request.files[name]]: the first part of that name. *)
Fixpoint files_get (name : string) (parts : list (string * FileStorage)) : option FileStorage :=
  match parts with
  | [] => None
  | (n, f) :: rest => if String.eqb n name then Some f else files_get name rest
  end.

(** [request.files.getlist(name)] *)
Fixpoint files_getlist (name : string) (parts : list (string * FileStorage)) : list FileStorage :=
  match parts with
  | [] => []
  | (n, f) :: rest =>
      if String.eqb n name then f :: files_getlist name rest else files_getlist name rest
  end.

Inductive body :=
| JsonBody (j : json)
| FileBody (p : path) (download_name mimetype : string).

Record response := Response { status : Z; resp_body : body }.

(** [jsonify(j)] and [jsonify(j), code] *)
Definition jsonify (j : json) : response := Response 200 (JsonBody j).
Definition jsonify_status (j : json) (code : Z) : response := Response code (JsonBody j).

Definition error_body (msg : string) : json := JObj [("error", JStr msg)].

(** ** The office suite and the world *)

Definition context := nat.
Definition document := nat.

(** The remote calls of the UNO bridge. *)
Inductive office_call :=
| Resolve
| CreateDesktop
| LoadComponentFromURL (url : path)
| DocumentProperties
| StoreToURL (url : path)
| CloseDocument.

#[global] Instance office_call_eq_dec : EqDecision office_call.
Proof. solve_decision. Defined.

(** The answers of the office suite and of the operating system.  Every
    answer may depend on how many calls of its kind came before, so that
    the suite may fail now and succeed later.
    - [resolve n]: the [n]-th bridge resolution (the [try] block of
      [get_uno_context]);
    - [taskkill n], [popen n]: the two subprocess calls of the [n]-th
      supervisor start, [Some e] when they raise;
    - the other fields: the desktop and document calls, indexed by the
      number of such calls made so far.  [load_component] may return no
      document ([None]); [document_properties] stands for reading
      [DocumentProperties] and setting its two attributes; [store_to_url]
      answers with what the target file holds afterwards ([None]: no file). *)
Record Office := {
  resolve : nat -> exn + context;
  taskkill : nat -> option exn;
  popen : nat -> option exn;
  create_desktop : nat -> exn + unit;
  load_component : nat -> path -> option file_content -> exn + option document;
  document_properties : nat -> document -> exn + unit;
  store_to_url : nat -> document -> path -> exn + option file_content;
  close_document : nat -> document -> exn + unit
}.

(** What the program runs against: the office suite, the interpreter's
    remaining recursion depth and the [hashlib] digest it imports. *)
Record Env := {
  office : Office;
  recursion_limit : nat;
  hashlib_sha256_hexdigest : list byte -> string
}.

(** The state a run reads and writes: the files, the serial number of the
    next temporary file, how many bridge resolutions, supervisor starts and
    desktop or document calls were made so far, and the clock in seconds. *)
Record World := mkWorld {
  fs : gmap path file_content;
  next_tmp : nat;
  attempts : nat;
  restarts : nat;
  calls : nat;
  clock : Z
}.

Inductive level := INFO | ERROR.

(** What a run does that the outside can observe: a log record (the format
    of the message and its arguments), the steps of a supervisor start, a
    sleep, a remote call and whether it returned, the creation of a
    temporary file and the deletion of a file. *)
Inductive event :=
| EvLog (lvl : level) (fmt : string) (args : list string)
| EvSupervisorStart
| EvKill (ok : bool)
| EvSpawn (ok : bool)
| EvSleep (seconds : Z)
| EvCall (c : office_call) (completed : bool)
| EvTempFile (p : path)
| EvUnlink (p : path).

(** ** Computations: state, exceptions and the events emitted *)

Record Res (A : Type) := mkRes {
  outcome : exn + A;
  world : World;
  events : list event
}.
Arguments mkRes {A} _ _ _.
Arguments outcome {A} _.
Arguments world {A} _.
Arguments events {A} _.

Definition M (A : Type) : Type := World -> Res A.

Definition ret {A} (a : A) : M A := fun w => mkRes (inr a) w [].

Definition raise {A} (e : exn) : M A := fun w => mkRes (inl e) w [].

Definition bind {A B} (m : M A) (k : A -> M B) : M B := fun w =>
  match m w with
  | mkRes (inl e) w1 ev1 => mkRes (inl e) w1 ev1
  | mkRes (inr a) w1 ev1 =>
      match k a w1 with
      | mkRes o w2 ev2 => mkRes o w2 (ev1 ++ ev2)
      end
  end.

(** [try: m  except Exception as e: h e] *)
Definition try_except {A} (m : M A) (h : exn -> M A) : M A := fun w =>
  match m w with
  | mkRes (inl e) w1 ev1 =>
      match h e w1 with
      | mkRes o w2 ev2 => mkRes o w2 (ev1 ++ ev2)
      end
  | r => r
  end.

(** [try: m  except cls: h], which lets every other exception through. *)
Definition try_except_class {A} (cls : exn_class) (m : M A) (h : M A) : M A := fun w =>
  match m w with
  | mkRes (inl e) w1 ev1 =>
      if decide (exn_cls e = cls)
      then match h w1 with
           | mkRes o w2 ev2 => mkRes o w2 (ev1 ++ ev2)
           end
      else mkRes (inl e) w1 ev1
  | r => r
  end.

Definition lift {A} (r : exn + A) : M A := fun w => mkRes r w [].

Declare Scope py_scope.
Delimit Scope py_scope with py.
Notation "x <- m ;; k" := (bind m (fun x => k))
  (at level 100, m at next level, right associativity) : py_scope.
Notation "m ;; k" := (bind m (fun _ => k))
  (at level 100, right associativity) : py_scope.
Local Open Scope py_scope.

Definition emit (ev : event) : M unit := fun w => mkRes (inr tt) w [ev].

Definition log (lvl : level) (fmt : string) (args : list string) : M unit :=
  emit (EvLog lvl fmt args).

(** [time.sleep(s)] and [time.time()] *)
Definition sleep (s : Z) : M unit := fun w =>
  mkRes (inr tt)
    (mkWorld (fs w) (next_tmp w) (attempts w) (restarts w) (calls w) (clock w + s))
    [EvSleep s].

Definition time_time : M Z := fun w => mkRes (inr (clock w)) w [].

Definition set_fs (f : gmap path file_content) (w : World) : World :=
  mkWorld f (next_tmp w) (attempts w) (restarts w) (calls w) (clock w).

(** [tempfile.NamedTemporaryFile(suffix=..., delete=False)]: a new, empty
    file that stays when it is closed. *)
Definition named_temporary_file (suffix : string) : M path := fun w =>
  let p := TmpPath (next_tmp w) suffix in
  mkRes (inr p)
    (mkWorld (<[p := Utf8Text ""]> (fs w)) (S (next_tmp w)) (attempts w) (restarts w)
       (calls w) (clock w))
    [EvTempFile p].

(** [file.save(p)] *)
Definition file_save (f : FileStorage) (p : path) : M unit := fun w =>
  mkRes (inr tt) (set_fs (<[p := stream f]> (fs w)) w) [].

(** [open(p, 'r', encoding='utf-8').read()] *)
Definition read_text (p : path) : M string := fun w =>
  match fs w !! p with
  | None => mkRes (inl (Exn FileNotFoundError "No such file or directory")) w []
  | Some (Undecodable _) => mkRes (inl (Exn UnicodeDecodeError "'utf-8' codec can't decode")) w []
  | Some (Utf8Text s) => mkRes (inr s) w []
  end.

(** [open(p, 'w', encoding='utf-8').write(s)] *)
Definition write_text (p : path) (s : string) : M unit := fun w =>
  mkRes (inr tt) (set_fs (<[p := Utf8Text s]> (fs w)) w) [].

(** [os.path.exists(p)] *)
Definition path_exists (p : path) : M bool := fun w =>
  mkRes (inr (match fs w !! p with Some _ => true | None => false end)) w [].

(** [os.unlink(p)] *)
Definition unlink (p : path) : M unit := fun w =>
  match fs w !! p with
  | None => mkRes (inl (Exn FileNotFoundError "No such file or directory")) w []
  | Some _ => mkRes (inr tt) (set_fs (delete p (fs w)) w) [EvUnlink p]
  end.

(** ** The literals of the HTML post-processors *)

(** The replacement for [</head>] in the first definition of
    [enhance_html_output]. *)
Definition dimension_style_block : string :=
  PyStr.lines
    [ "";
      "                <style>";
      "                    /* Preserve exact dimensions and spacing */";
      "                    body { margin: 0; padding: 0; -webkit-text-size-adjust: 100%; }";
      "                    p { margin-bottom: 0; white-space: pre-wrap; }";
      "                    /* Preserve font metrics */";
      "                    * { line-height: normal !important; font-family: inherit !important; }";
      "                    /* Preserve table layouts */";
      "                    table { border-collapse: collapse; width: auto !important; table-layout: fixed; }";
      "                    td, th { padding: inherit; border-spacing: 0; }";
      "                    /* Preserve list formatting */";
      "                    ul, ol { margin: 0; padding-left: 40px; list-style-position: outside; }";
      "                    /* Preserve image dimensions */";
      "                    img { max-width: none; height: auto; display: inline-block; }";
      "                    /* Preserve section breaks and page layout */";
      "                    div { page-break-inside: avoid; }";
      "                    br { display: block; }";
      "                    /* Preserve whitespace */";
      "                    pre { white-space: pre-wrap; margin: 0; }";
      "                    /* Preserve text positioning */";
      "                    span { position: relative; }";
      "                </style>";
      "                </head>" ].

(** The rules the first definition appends to the first style element. *)
Definition box_sizing_rules : string :=
  PyStr.lines
    [ "";
      "                    /* Preserve exact formatting */";
      "                    body * {";
      "                        box-sizing: border-box !important;";
      "                        -webkit-box-sizing: border-box !important;";
      "                        -moz-box-sizing: border-box !important;";
      "                    }";
      "                " ].

(** The replacement for [<head>] in the second definition. *)
Definition head_block : string :=
  PyStr.lines
    [ "<head>";
      "                <meta charset=" +:+ PyStr.dq +:+ "UTF-8" +:+ PyStr.dq +:+ ">";
      "                <meta name=" +:+ PyStr.dq +:+ "viewport" +:+ PyStr.dq +:+ " content=" +:+ PyStr.dq +:+ "width=device-width, initial-scale=1.0" +:+ PyStr.dq +:+ ">";
      "                <style>";
      "                    body { font-family: 'Segoe UI', Tahoma, Geneva, Verdana, sans-serif; line-height: 1.6; margin: 0; padding: 20px; }";
      "                    .resume-container { max-width: 800px; margin: 0 auto; background: white; }";
      "                    table { width: 100%; border-collapse: collapse; margin: 10px 0; }";
      "                    td, th { padding: 8px; text-align: left; vertical-align: top; }";
      "                    h1, h2, h3 { color: #333; margin-top: 20px; margin-bottom: 10px; }";
      "                    p { margin: 8px 0; }";
      "                    ul, ol { margin: 8px 0; padding-left: 20px; }";
      "                    .page-break { page-break-before: always; }";
      "                </style>" ].

(** The style element inside [head_block]. *)
Definition injected_style_block : string :=
  PyStr.lines
    [ "<style>";
      "                    body { font-family: 'Segoe UI', Tahoma, Geneva, Verdana, sans-serif; line-height: 1.6; margin: 0; padding: 20px; }";
      "                    .resume-container { max-width: 800px; margin: 0 auto; background: white; }";
      "                    table { width: 100%; border-collapse: collapse; margin: 10px 0; }";
      "                    td, th { padding: 8px; text-align: left; vertical-align: top; }";
      "                    h1, h2, h3 { color: #333; margin-top: 20px; margin-bottom: 10px; }";
      "                    p { margin: 8px 0; }";
      "                    ul, ol { margin: 8px 0; padding-left: 20px; }";
      "                    .page-break { page-break-before: always; }";
      "                </style>" ].

(** ** The class body of [LibreOfficeConverter]

    A class body is executed top to bottom and every [def] binds its name
    in the class namespace, replacing an earlier binding of that name.
    [enhance_html_output] is defined twice, at lines 127 and 226. *)

Inductive method_def :=
| Def_init
| Def_start_libreoffice_service
| Def_get_uno_context
| Def_docx_to_html
| Def_enhance_html_output_127
| Def_html_to_docx
| Def_enhance_html_output_226
| Def_apply_template_styles.

Definition class_body : list (string * method_def) :=
  [ ("__init__", Def_init);
    ("start_libreoffice_service", Def_start_libreoffice_service);
    ("get_uno_context", Def_get_uno_context);
    ("docx_to_html", Def_docx_to_html);
    ("enhance_html_output", Def_enhance_html_output_127);
    ("html_to_docx", Def_html_to_docx);
    ("enhance_html_output", Def_enhance_html_output_226);
    ("apply_template_styles", Def_apply_template_styles) ].

Definition class_namespace : gmap string method_def :=
  fold_left (fun ns d => <[fst d := snd d]> ns) class_body ∅.

(** What a method returns when the caller may see [None] or a boolean. *)
Inductive pyval := PyNone | PyBool (b : bool).

Definition soffice_port : Z := 2002.

Section Converter.

Variable E : Env.

Definition bump_calls (w : World) : World :=
  mkWorld (fs w) (next_tmp w) (attempts w) (restarts w) (S (calls w)) (clock w).

(** A call over the bridge, answered by the office suite. *)
Definition remote {A} (c : office_call) (answer : World -> exn + A) : M A := fun w =>
  match answer w with
  | inl e => mkRes (inl e) (bump_calls w) [EvCall c false]
  | inr a => mkRes (inr a) (bump_calls w) [EvCall c true]
  end.

(** A method call on what [loadComponentFromURL] returned: on [None] the
    attribute lookup raises. *)
Definition document_call {A} (c : office_call) (doc : option document)
    (answer : document -> World -> exn + A) : M A :=
  match doc with
  | None => fun w =>
      mkRes (inl (Exn AttributeError "'NoneType' object has no attribute")) w [EvCall c false]
  | Some d => remote c (answer d)
  end.

(** What [storeToURL] leaves at its target. *)
Definition set_file (p : path) (c : option file_content) : M unit := fun w =>
  mkRes (inr tt)
    (set_fs (match c with Some x => <[p := x]> (fs w) | None => delete p (fs w) end) w) [].

(** The [try] block of [get_uno_context]: the local component context,
    the URL resolver and [resolver.resolve]. *)
Definition resolve_bridge : M context := fun w =>
  let w' := mkWorld (fs w) (next_tmp w) (S (attempts w)) (restarts w) (calls w) (clock w) in
  match resolve (office E) (attempts w) with
  | inl e => mkRes (inl e) w' [EvCall Resolve false]
  | inr c => mkRes (inr c) w' [EvCall Resolve true]
  end.

Definition supervisor_start : M nat := fun w =>
  mkRes (inr (restarts w))
    (mkWorld (fs w) (next_tmp w) (attempts w) (S (restarts w)) (calls w) (clock w))
    [EvSupervisorStart].

Definition subprocess (ev : bool -> event) (answer : option exn) : M unit := fun w =>
  match answer with
  | Some e => mkRes (inl e) w [ev false]
  | None => mkRes (inr tt) w [ev true]
  end.

(** [LibreOfficeConverter.start_libreoffice_service] *)
Definition start_libreoffice_service : M unit :=
  n <- supervisor_start ;;
  try_except
    (subprocess EvKill (taskkill (office E) n) ;;
     sleep 2 ;;
     subprocess EvSpawn (popen (office E) n) ;;
     sleep 5 ;;
     log INFO "LibreOffice service started" [])
    (fun e => log ERROR "Failed to start LibreOffice service: {}" [exn_str e]).

(** [LibreOfficeConverter.__init__] *)
Definition init : M unit := start_libreoffice_service.

(** [LibreOfficeConverter.get_uno_context].  The method calls itself in
    its [except NoConnectException] clause; [depth] is the recursion
    depth the interpreter still allows. *)
Fixpoint get_uno_context_rec (depth : nat) : M context :=
  match depth with
  | O => raise (Exn RecursionError "maximum recursion depth exceeded")
  | S d =>
      try_except_class NoConnectException
        resolve_bridge
        (log ERROR "Failed to connect to LibreOffice service" [] ;;
         start_libreoffice_service ;;
         sleep 5 ;;
         get_uno_context_rec d)
  end.

Definition get_uno_context : M context := get_uno_context_rec (recursion_limit E).

(** [enhance_html_output], first definition (line 127). *)
Definition enhance_html_output_127 (html_path : path) : M pyval :=
  present <- path_exists html_path ;;
  if negb present then
    log ERROR "HTML file not found: {}" [path_str html_path] ;;
    ret PyNone
  else
    try_except
      (content <- read_text html_path ;;
       let content := PyStr.replace "</head>" dimension_style_block content in
       let content :=
         if PyStr.contains "<style>" content && PyStr.contains "</style>" content then
           let style_start := (PyStr.find "<style>" content + 7)%Z in
           let style_end := PyStr.find "</style>" content in
           let styles := PyStr.slice content style_start style_end in
           PyStr.replace styles (styles +:+ box_sizing_rules) content
         else content in
       write_text html_path content ;;
       log INFO "Enhanced HTML formatting in {}" [path_str html_path] ;;
       ret PyNone)
      (fun e =>
         log ERROR "Failed to enhance HTML output: {}" [exn_str e] ;;
         ret (PyBool true)).

(** [enhance_html_output], second definition (line 226). *)
Definition enhance_html_output_226 (html_path : path) : M pyval :=
  try_except
    (content <- read_text html_path ;;
     let enhanced_content := PyStr.replace "<head>" head_block content in
     write_text html_path enhanced_content ;;
     ret PyNone)
    (fun e =>
       log ERROR "HTML enhancement failed: {}" [exn_str e] ;;
       ret PyNone).

(** [self.enhance_html_output]: the attribute is looked up in the class
    namespace. *)
Definition enhance_html_output (html_path : path) : M pyval :=
  match class_namespace !! "enhance_html_output" with
  | Some Def_enhance_html_output_127 => enhance_html_output_127 html_path
  | Some Def_enhance_html_output_226 => enhance_html_output_226 html_path
  | _ => raise (Exn AttributeError "'LibreOfficeConverter' object has no attribute")
  end.

(** [LibreOfficeConverter.apply_template_styles]: the body is [pass]. *)
Definition apply_template_styles (doc : option document) (template_path : string) : M unit :=
  try_except
    (ret tt)
    (fun e => log ERROR "Template application failed: {}" [exn_str e]).

(** [LibreOfficeConverter.docx_to_html] *)
Definition docx_to_html (docx_path html_path : path) : M bool :=
  try_except
    (context <- get_uno_context ;;
     desktop <- remote CreateDesktop (fun w => create_desktop (office E) (calls w)) ;;
     document <- remote (LoadComponentFromURL docx_path)
                   (fun w => load_component (office E) (calls w) docx_path (fs w !! docx_path)) ;;
     document_call DocumentProperties document
       (fun d w => document_properties (office E) (calls w) d) ;;
     stored <- document_call (StoreToURL html_path) document
                 (fun d w => store_to_url (office E) (calls w) d html_path) ;;
     set_file html_path stored ;;
     document_call CloseDocument document
       (fun d w => close_document (office E) (calls w) d) ;;
     enhance_html_output html_path ;;
     ret true)
    (fun e =>
       log ERROR "Failed to convert {} to {}: {}"
         [path_str docx_path; path_str html_path; exn_str e] ;;
       ret false).

(** [LibreOfficeConverter.html_to_docx] *)
Definition html_to_docx (html_path docx_path : path) (template_path : option string) : M bool :=
  try_except
    (context <- get_uno_context ;;
     desktop <- remote CreateDesktop (fun w => create_desktop (office E) (calls w)) ;;
     document <- remote (LoadComponentFromURL html_path)
                   (fun w => load_component (office E) (calls w) html_path (fs w !! html_path)) ;;
     match template_path with
     | Some t =>
         present <- (if String.eqb t "" then ret false else path_exists (AbsPath t)) ;;
         if present then apply_template_styles document t else ret tt
     | None => ret tt
     end ;;
     stored <- document_call (StoreToURL docx_path) document
                 (fun d w => store_to_url (office E) (calls w) d docx_path) ;;
     set_file docx_path stored ;;
     document_call CloseDocument document
       (fun d w => close_document (office E) (calls w) d) ;;
     ret true)
    (fun e =>
       log ERROR "HTML to DOCX conversion failed: {}" [exn_str e] ;;
       ret false).

(** ** The endpoints *)

(** [GET /health] *)
Definition health_check (req : Request) : M response :=
  t <- time_time ;;
  ret (jsonify (JObj [ ("status", JStr "healthy");
                       ("service", JStr "libreoffice-converter");
                       ("timestamp", JNum t) ])).

Definition content_hash (html_content : string) : string :=
  hashlib_sha256_hexdigest E (PyStr.encode html_content).

(** [POST /convert/docx-to-html] *)
Definition convert_docx_to_html (req : Request) : M response :=
  try_except
    (match files_get "file" (files req) with
     | None => ret (jsonify_status (error_body "No file provided") 400)
     | Some file =>
         if String.eqb (filename file) "" then
           ret (jsonify_status (error_body "No file selected") 400)
         else
           docx_path <- named_temporary_file ".docx" ;;
           file_save file docx_path ;;
           html_path <- named_temporary_file ".html" ;;
           success <- docx_to_html docx_path html_path ;;
           present <- (if success then path_exists html_path else ret false) ;;
           if present then
             html_content <- read_text html_path ;;
             let hash := content_hash html_content in
             unlink docx_path ;;
             unlink html_path ;;
             t <- time_time ;;
             ret (jsonify (JObj [ ("success", JBool true);
                                  ("html", JStr html_content);
                                  ("hash", JStr hash);
                                  ("timestamp", JNum t) ]))
           else
             ret (jsonify_status (error_body "Conversion failed") 500)
     end)
    (fun e =>
       log ERROR "DOCX to HTML conversion error: {}" [exn_str e] ;;
       ret (jsonify_status (error_body (exn_str e)) 500)).

(** [temp_html.write(html_content)] on the open temporary file. *)
Definition temp_write (p : path) (v : json) : M unit :=
  match v with
  | JStr s => write_text p s
  | _ => raise (Exn TypeError "write() argument must be str")
  end.

(** [send_file(p, as_attachment=True, download_name=..., mimetype=...)] *)
Definition send_file (p : path) (download_name mimetype : string) : M response := fun w =>
  match fs w !! p with
  | None => mkRes (inl (Exn FileNotFoundError "No such file or directory")) w []
  | Some _ => mkRes (inr (Response 200 (FileBody p download_name mimetype))) w []
  end.

(** [POST /convert/html-to-docx] *)
Definition convert_html_to_docx (req : Request) : M response :=
  try_except
    (data <- lift (get_json req) ;;
     missing <- (if negb (truthy data) then ret true
                 else present <- lift (py_in "html" data) ;; ret (negb present)) ;;
     if missing then
       ret (jsonify_status (error_body "No HTML content provided") 400)
     else
       html_content <- lift (py_getitem "html" data) ;;
       template_name <- lift (py_get "template" (JStr "default") data) ;;
       html_path <- named_temporary_file ".html" ;;
       temp_write html_path html_content ;;
       docx_path <- named_temporary_file ".docx" ;;
       let template_path :=
         if is_str "default" template_name then None
         else Some ("/app/templates/" +:+ py_str template_name +:+ ".dotx") in
       success <- html_to_docx html_path docx_path template_path ;;
       present <- (if success then path_exists docx_path else ret false) ;;
       if present then
         send_file docx_path "resume.docx"
           "application/vnd.openxmlformats-officedocument.wordprocessingml.document"
       else
         ret (jsonify_status (error_body "Conversion failed") 500))
    (fun e =>
       log ERROR "HTML to DOCX conversion error: {}" [exn_str e] ;;
       ret (jsonify_status (error_body (exn_str e)) 500)).

(** The body of the [for file in files] loop of [batch_convert], with the
    [results] list built so far. *)
Fixpoint batch_loop (uploads : list FileStorage) (results : list json) : M (list json) :=
  match uploads with
  | [] => ret results
  | file :: rest =>
      docx_path <- named_temporary_file ".docx" ;;
      file_save file docx_path ;;
      html_path <- named_temporary_file ".html" ;;
      success <- docx_to_html docx_path html_path ;;
      entry <- (if success then
                  html_content <- read_text html_path ;;
                  ret (JObj [ ("filename", JStr (filename file));
                              ("success", JBool true);
                              ("html", JStr html_content);
                              ("hash", JStr (content_hash html_content)) ])
                else
                  ret (JObj [ ("filename", JStr (filename file));
                              ("success", JBool false);
                              ("error", JStr "Conversion failed") ])) ;;
      unlink docx_path ;;
      unlink html_path ;;
      batch_loop rest (results ++ [entry])
  end.

(** [POST /convert/batch] *)
Definition batch_convert (req : Request) : M response :=
  try_except
    (let uploads := files_getlist "files" (files req) in
     match uploads with
     | [] => ret (jsonify_status (error_body "No files provided") 400)
     | _ :: _ =>
         results <- batch_loop uploads [] ;;
         ret (jsonify (JObj [ ("success", JBool true);
                              ("results", JArr results);
                              ("processed", JNum (Z.of_nat (List.length results))) ]))
     end)
    (fun e =>
       log ERROR "Batch conversion error: {}" [exn_str e] ;;
       ret (jsonify_status (error_body (exn_str e)) 500)).

End Converter.

(** ** Routing: the [@app.route] table *)

Inductive endpoint := Health | DocxToHtml | HtmlToDocx | Batch.

Definition route (method url : string) : option endpoint :=
  if String.eqb method "GET" && String.eqb url "/health" then Some Health
  else if String.eqb method "POST" && String.eqb url "/convert/docx-to-html" then Some DocxToHtml
  else if String.eqb method "POST" && String.eqb url "/convert/html-to-docx" then Some HtmlToDocx
  else if String.eqb method "POST" && String.eqb url "/convert/batch" then Some Batch
  else None.

Definition handle (E : Env) (ep : endpoint) (req : Request) : M response :=
  match ep with
  | Health => health_check req
  | DocxToHtml => convert_docx_to_html E req
  | HtmlToDocx => convert_html_to_docx E req
  | Batch => batch_convert E req
  end.

(** ** Observations on a run *)

Fixpoint count (f : event -> bool) (evs : list event) : nat :=
  match evs with
  | [] => 0
  | ev :: rest => if f ev then S (count f rest) else count f rest
  end.

Definition is_supervisor_start (ev : event) : bool :=
  match ev with EvSupervisorStart => true | _ => false end.

Definition is_resolve (ev : event) : bool :=
  match ev with EvCall Resolve _ => true | _ => false end.

(** How often the run restarted the supervisor and how often it tried to
    resolve the bridge. *)
Definition restarts_of {A} (r : Res A) : nat := count is_supervisor_start (events r).
Definition resolutions_of {A} (r : Res A) : nat := count is_resolve (events r).

(** The remote call [c] was made and returned. *)
Definition completed {A} (c : office_call) (r : Res A) : Prop :=
  In (EvCall c true) (events r).

(** The events of the bridge client and of the supervisor. *)
Definition bridge_formats : list string :=
  [ "Failed to connect to LibreOffice service";
    "LibreOffice service started";
    "Failed to start LibreOffice service: {}" ].

Definition bridge_event (ev : event) : Prop :=
  match ev with
  | EvLog _ fmt _ => In fmt bridge_formats
  | EvSupervisorStart | EvKill _ | EvSpawn _ | EvSleep _
  | EvCall Resolve _ => True
  | _ => False
  end.

(** The creation or the deletion of a file. *)
Definition is_file_event (ev : event) : bool :=
  match ev with
  | EvTempFile _ | EvUnlink _ => true
  | _ => false
  end.

(** The log record of a conversion that returns [False], and the log
    record of a handler that catches an exception. *)
Definition conversion_failure_formats : list string :=
  [ "Failed to convert {} to {}: {}";
    "HTML to DOCX conversion failed: {}" ].

Definition handler_error_formats : list string :=
  [ "DOCX to HTML conversion error: {}";
    "HTML to DOCX conversion error: {}";
    "Batch conversion error: {}" ].

Definition logs_error (formats : list string) (ev : event) : bool :=
  match ev with
  | EvLog ERROR fmt _ => existsb (String.eqb fmt) formats
  | _ => false
  end.

(** A conversion returned [False] during the run. *)
Definition conversion_failed {A} (r : Res A) : bool :=
  existsb (logs_error conversion_failure_formats) (events r).

(** The handler caught an exception during the run. *)
Definition exception_caught {A} (r : Res A) : bool :=
  existsb (logs_error handler_error_formats) (events r).

Definition internal_failure {A} (r : Res A) : bool :=
  conversion_failed r || exception_caught r.

(** All the remote calls of [cs] were made and returned. *)
Definition all_completed {A} (cs : list office_call) (r : Res A) : Prop :=
  forall c, In c cs -> completed c r.

(** Every temporary file the run created is absent when it ends. *)
Definition temp_files_deleted {A} (r : Res A) : Prop :=
  forall p, In (EvTempFile p) (events r) -> fs (world r) !! p = None.

(** The run deleted no file. *)
Definition nothing_unlinked {A} (r : Res A) : Prop :=
  forall p, ~ In (EvUnlink p) (events r).

(** The response of a run, when it returned one. *)
Definition returned {A} (r : Res A) (a : A) : Prop := outcome r = inr a.

Definition json_of (resp : response) : option json :=
  match resp_body resp with
  | JsonBody j => Some j
  | FileBody _ _ _ => None
  end.

Definition response_field (k : string) (resp : response) : option json :=
  match json_of resp with
  | Some j => field k j
  | None => None
  end.

Definition is_error_response (code : Z) (resp : response) : Prop :=
  status resp = code /\ exists msg, resp_body resp = JsonBody (error_body msg).

(** A request that lacks the input its endpoint requires. *)
Definition missing_input (ep : endpoint) (req : Request) : Prop :=
  match ep with
  | Health => False
  | DocxToHtml =>
      files_get "file" (files req) = None \/
      exists f, files_get "file" (files req) = Some f /\ filename f = ""
  | HtmlToDocx =>
      exists fields, get_json req = inr (JObj fields) /\ assoc "html" fields = None
  | Batch => files_getlist "files" (files req) = []
  end.

(** An entry of the [results] list of the batch response for the upload
    [f], under the digest [h]. *)
Definition batch_entry (h : list byte -> string) (f : FileStorage) (entry : json) : Prop :=
  (exists html,
     entry = JObj [ ("filename", JStr (filename f));
                    ("success", JBool true);
                    ("html", JStr html);
                    ("hash", JStr (h (PyStr.encode html))) ]) \/
  entry = JObj [ ("filename", JStr (filename f));
                 ("success", JBool false);
                 ("error", JStr "Conversion failed") ].

(** A JSON document without its ['hash'] members. *)
Fixpoint without_hash (j : json) : json :=
  match j with
  | JArr items => JArr (List.map without_hash items)
  | JObj fields =>
      JObj ((fix go (l : list (string * json)) : list (string * json) :=
               match l with
               | [] => []
               | (k, v) :: l' =>
                   if String.eqb k "hash" then go l' else (k, without_hash v) :: go l'
               end) fields)
  | _ => j
  end.

Definition response_without_hash (resp : response) : response :=
  match resp_body resp with
  | JsonBody j => Response (status resp) (JsonBody (without_hash j))
  | FileBody _ _ _ => resp
  end.

Definition outcome_without_hash (o : exn + response) : exn + response :=
  match o with
  | inl e => inl e
  | inr resp => inr (response_without_hash resp)
  end.

(** The text the office suite exports for a docx-to-html request handled
    from the world [w]: the answer to the [storeToURL] call of that request,
    the fourth desktop or document call of the conversion, on the second
    temporary file of the request. *)
Definition exported_text (E : Env) (w : World) (s : string) : Prop :=
  exists d,
    store_to_url (office E) (S (S (S (calls w)))) d (TmpPath (S (next_tmp w)) ".html")
      = inr (Some (Utf8Text s)).

(** The bridge refuses the first [k] resolutions counted from [n] and does
    not refuse the next one. *)
Definition refuses (o : Office) (n k : nat) : Prop :=
  (forall i, i < k ->
     exists e, resolve o (n + i) = inl e /\ exn_cls e = NoConnectException) /\
  match resolve o (n + k) with
  | inl e => exn_cls e <> NoConnectException
  | inr _ => True
  end.

(** The entries of the batch response, as [batch_convert] builds them. *)
Definition success_entry (h : list byte -> string) (f : FileStorage) (html : string) : json :=
  JObj [ ("filename", JStr (filename f));
         ("success", JBool true);
         ("html", JStr html);
         ("hash", JStr (h (PyStr.encode html))) ].

Definition failure_entry (f : FileStorage) : json :=
  JObj [ ("filename", JStr (filename f));
         ("success", JBool false);
         ("error", JStr "Conversion failed") ].

(** The world once the upload is saved and the two temporary files of a
    DOCX conversion exist. *)
Definition staged (f : FileStorage) (w : World) : World :=
  let docx := TmpPath (next_tmp w) ".docx" in
  let html := TmpPath (S (next_tmp w)) ".html" in
  mkWorld (<[html := Utf8Text ""]> (<[docx := stream f]> (<[docx := Utf8Text ""]> (fs w))))
    (S (S (next_tmp w))) (attempts w) (restarts w) (calls w) (clock w).

(** The world once these two files are unlinked. *)
Definition cleaned (docx html : path) (w : World) : World :=
  set_fs (delete html (delete docx (fs w))) w.

(** The remote calls of the two conversions, in the order they are made. *)
Definition docx_to_html_calls (docx_path html_path : path) : list office_call :=
  [ Resolve; CreateDesktop; LoadComponentFromURL docx_path; DocumentProperties;
    StoreToURL html_path; CloseDocument ].

Definition html_to_docx_calls (html_path docx_path : path) : list office_call :=
  [ Resolve; CreateDesktop; LoadComponentFromURL html_path;
    StoreToURL docx_path; CloseDocument ].

(** The digits of a lower-case hexadecimal string. *)
Definition hex_alphabet : list ascii := list_ascii_of_string "0123456789abcdef".

(** ** Scenarios *)

Module Scenario.

Definition no_connect : exn :=
  Exn NoConnectException "Connector : couldn't connect to socket".

Definition exported_html : string :=
  "<html><head><title>cv</title></head><body><p>Jane Doe</p></body></html>".

(** An office suite that answers every call. *)
Definition healthy : Office := {|
  resolve := fun _ => inr 0;
  taskkill := fun _ => None;
  popen := fun _ => None;
  create_desktop := fun _ => inr tt;
  load_component := fun _ _ _ => inr (Some 1);
  document_properties := fun _ _ => inr tt;
  store_to_url := fun _ _ _ => inr (Some (Utf8Text exported_html));
  close_document := fun _ _ => inr tt
|}.

(** The bridge refuses the first two connections. *)
Definition slow_start : Office := {|
  resolve := fun n => if Nat.ltb n 2 then inl no_connect else inr 0;
  taskkill := taskkill healthy;
  popen := popen healthy;
  create_desktop := create_desktop healthy;
  load_component := load_component healthy;
  document_properties := document_properties healthy;
  store_to_url := store_to_url healthy;
  close_document := close_document healthy
|}.

(** The export writes its tags in upper case. *)
Definition upper_case : Office := {|
  resolve := resolve healthy;
  taskkill := taskkill healthy;
  popen := popen healthy;
  create_desktop := create_desktop healthy;
  load_component := load_component healthy;
  document_properties := document_properties healthy;
  store_to_url := fun _ _ _ =>
    inr (Some (Utf8Text "<HTML><HEAD><TITLE>cv</TITLE></HEAD><BODY><P>Jane Doe</P></BODY></HTML>"));
  close_document := close_document healthy
|}.

(** Closing the document is vetoed. *)
Definition close_vetoed : Office := {|
  resolve := resolve healthy;
  taskkill := taskkill healthy;
  popen := popen healthy;
  create_desktop := create_desktop healthy;
  load_component := load_component healthy;
  document_properties := document_properties healthy;
  store_to_url := store_to_url healthy;
  close_document := fun _ _ => inl (Exn UnoException "CloseVetoException")
|}.

(** The export is not valid UTF-8. *)
Definition binary_export : Office := {|
  resolve := resolve healthy;
  taskkill := taskkill healthy;
  popen := popen healthy;
  create_desktop := create_desktop healthy;
  load_component := load_component healthy;
  document_properties := document_properties healthy;
  store_to_url := fun _ _ _ => inr (Some (Undecodable [xff%byte; xfe%byte]));
  close_document := close_document healthy
|}.

(** No document can be loaded. *)
Definition unreadable : Office := {|
  resolve := resolve healthy;
  taskkill := taskkill healthy;
  popen := popen healthy;
  create_desktop := create_desktop healthy;
  load_component := fun _ _ _ => inl (Exn UnoException "IllegalArgumentException: Unsupported URL");
  document_properties := document_properties healthy;
  store_to_url := store_to_url healthy;
  close_document := close_document healthy
|}.

Definition env (o : Office) : Env := {|
  office := o;
  recursion_limit := 1000;
  hashlib_sha256_hexdigest := SHA256.hexdigest
|}.

Definition world0 : World := mkWorld ∅ 0 0 0 0 1700000000.

Definition cv : FileStorage :=
  {| filename := "cv.docx"; stream := Undecodable ["P"%byte; "K"%byte; x03%byte; x04%byte] |}.

Definition letter : FileStorage :=
  {| filename := "letter.docx"; stream := Undecodable ["P"%byte; "K"%byte; x03%byte; x04%byte] |}.

Definition no_json : exn + json := inl (Exn HTTPException "415 Unsupported Media Type").

Definition docx_request : Request := {| files := [("file", cv)]; get_json := no_json |}.

Definition batch_request : Request :=
  {| files := [("files", cv); ("files", letter)]; get_json := no_json |}.

Definition html_request : Request :=
  {| files := []; get_json := inr (JObj [("html", JStr "<p>Jane Doe</p>")]) |}.

Definition empty_request : Request := {| files := []; get_json := no_json |}.

Definition unnamed_request : Request :=
  {| files := [("file", {| filename := ""; stream := Utf8Text "" |})]; get_json := no_json |}.

Definition keyless_request : Request :=
  {| files := []; get_json := inr (JObj [("template", JStr "modern")]) |}.

End Scenario.


(** ** Further observations on a run *)

(** No temporary file of a serial number still to be given exists: what
    [tempfile] guarantees of the names it picks. *)
Definition fresh_above (w : World) : Prop :=
  forall n sfx, next_tmp w <= n -> fs w !! TmpPath n sfx = None.

Definition is_temp_file (ev : event) : bool :=
  match ev with EvTempFile _ => true | _ => false end.

Definition is_unlink (ev : event) : bool :=
  match ev with EvUnlink _ => true | _ => false end.

(** The desktop and document calls, which follow the bridge resolution. *)
Definition is_document_call (ev : event) : bool :=
  match ev with
  | EvCall Resolve _ => false
  | EvCall _ _ => true
  | _ => false
  end.

(** The seconds a run slept. *)
Definition elapsed {A} (w : World) (r : Res A) : Z := (clock (world r) - clock w)%Z.

(** The bridge refuses every resolution. *)
Definition always_refuses (o : Office) : Prop :=
  forall n, exists e, resolve o n = inl e /\ exn_cls e = NoConnectException.

(** The world once one more resolution was made, and the world [s] seconds
    later. *)
Definition after_resolution (w : World) : World :=
  mkWorld (fs w) (next_tmp w) (S (attempts w)) (restarts w) (calls w) (clock w).

Definition later (s : Z) (w : World) : World :=
  mkWorld (fs w) (next_tmp w) (attempts w) (restarts w) (calls w) (clock w + s).

(** The world of an html-to-docx request once the posted text is written to
    the first temporary file and the second one exists. *)
Definition staged_html (s : string) (w : World) : World :=
  let html := TmpPath (next_tmp w) ".html" in
  let docx := TmpPath (S (next_tmp w)) ".docx" in
  mkWorld (<[docx := Utf8Text ""]> (<[html := Utf8Text s]> (<[html := Utf8Text ""]> (fs w))))
    (S (S (next_tmp w))) (attempts w) (restarts w) (calls w) (clock w).

Definition docx_mimetype : string :=
  "application/vnd.openxmlformats-officedocument.wordprocessingml.document".

(** What [docx_to_html] returns for each upload of a batch, in the world
    the loop calls it in, together with what it leaves at the HTML path. *)
Fixpoint batch_conversions (E : Env) (uploads : list FileStorage) (w : World)
    : list ((exn + bool) * option file_content) :=
  match uploads with
  | [] => []
  | f :: rest =>
      let docx := TmpPath (next_tmp w) ".docx" in
      let html := TmpPath (S (next_tmp w)) ".html" in
      let r := docx_to_html E docx html (staged f w) in
      (outcome r, fs (world r) !! html)
        :: batch_conversions E rest (cleaned docx html (world r))
  end.

(** The entry of the batch response that goes with a conversion: the success
    entry with the text of the HTML file when it returned [True], the
    failure entry when it returned [False]; none otherwise. *)
Definition entry_of (h : list byte -> string) (f : FileStorage)
    (c : (exn + bool) * option file_content) : option json :=
  match c with
  | (inr true, Some (Utf8Text html)) => Some (success_entry h f html)
  | (inr false, _) => Some (failure_entry f)
  | _ => None
  end.

(** ** Scenarios of an office suite that fails *)

Module Faults.

(** No connection is ever accepted. *)
Definition unreachable : Office := {|
  resolve := fun _ => inl Scenario.no_connect;
  taskkill := taskkill Scenario.healthy;
  popen := popen Scenario.healthy;
  create_desktop := create_desktop Scenario.healthy;
  load_component := load_component Scenario.healthy;
  document_properties := document_properties Scenario.healthy;
  store_to_url := store_to_url Scenario.healthy;
  close_document := close_document Scenario.healthy
|}.

(** The export raises. *)
Definition export_fails : Office := {|
  resolve := resolve Scenario.healthy;
  taskkill := taskkill Scenario.healthy;
  popen := popen Scenario.healthy;
  create_desktop := create_desktop Scenario.healthy;
  load_component := load_component Scenario.healthy;
  document_properties := document_properties Scenario.healthy;
  store_to_url := fun _ _ _ => inl (Exn UnoException "IOException: SfxBaseModel::impl_store");
  close_document := close_document Scenario.healthy
|}.

(** A small recursion depth, for a bridge that never answers. *)
Definition shallow (o : Office) : Env := {|
  office := o;
  recursion_limit := 3;
  hashlib_sha256_hexdigest := SHA256.hexdigest
|}.

Definition page : path := AbsPath "/tmp/page.html".

Definition with_page (s : string) : World :=
  set_fs {[ page := Utf8Text s ]} Scenario.world0.

Definition templated_request : Request :=
  {| files := [];
     get_json := inr (JObj [("template", JStr "modern"); ("html", JStr "<p>Jane Doe</p>")]) |}.

Definition numeric_request : Request :=
  {| files := []; get_json := inr (JObj [("html", JNum 3)]) |}.

(** Bodies that are valid JSON and no object. *)
Definition number_body : Request := {| files := []; get_json := inr (JNum 5) |}.

Definition true_body : Request := {| files := []; get_json := inr (JBool true) |}.

Definition text_body : Request :=
  {| files := []; get_json := inr (JStr "<html><body>cv</body></html>") |}.

End Faults.

(** * The connection test script

    [test_libreoffice.py] resolves the bridge itself and prints what it
    finds.  It runs against the answer of [resolver.resolve] (which also
    stands for the two calls before it) and the answer of
    [createInstanceWithContext] for the desktop: an exception or the truth
    value of the object it returns. *)

Module TestScript.










End TestScript.


(** * Properties *)

Local Open Scope list_scope.

(** ** Test vectors of the digest and of the string operations *)

Example sha256_empty :
  SHA256.hexdigest (PyStr.encode "") =
  "e3b0c44298fc1c149afbf4c8996fb92427ae41e4649b934ca495991b7852b855".
Proof. vm_compute. reflexivity. Qed.

Example sha256_abc :
  SHA256.hexdigest (PyStr.encode "abc") =
  "ba7816bf8f01cfea414140de5dae2223b00361a396177a9cb410ff61f20015ad".
Proof. vm_compute. reflexivity. Qed.

Example sha256_two_blocks :
  SHA256.hexdigest (List.repeat "a"%byte 119) =
  "31eba51c313a5c08226adf18d4a359cfdfd8d2e816b13f4af952f7ea6584dcfb".
Proof. vm_compute. reflexivity. Qed.

Example replace_empty_pattern : PyStr.replace "" "X" "abc" = "XaXbXcX".
Proof. reflexivity. Qed.

Example replace_non_overlapping : PyStr.replace "aa" "b" "aaa" = "ba".
Proof. reflexivity. Qed.

Example slice_crossed_bounds : PyStr.slice "abc" 2 1 = "".
Proof. reflexivity. Qed.

Example find_absent : PyStr.find "a" "" = (-1)%Z.
Proof. reflexivity. Qed.

(** ** Facts on the string operations *)

Module PyStrFacts.
Import PyStr.

Lemma append_nil (s : string) : "" +:+ s = s.
Proof. reflexivity. Qed.

Lemma append_cons (c : ascii) (s t : string) : String c s +:+ t = String c (s +:+ t).
Proof. reflexivity. Qed.

Lemma append_assoc (a b c : string) : (a +:+ b) +:+ c = a +:+ b +:+ c.
Proof.
  induction a as [|x a IH]; [reflexivity |].
  now rewrite !append_cons, IH.
Qed.

Lemma startswith_app (p s : string) : startswith p (p +:+ s) = true.
Proof.
  induction p as [|x p IH]; [reflexivity |].
  rewrite append_cons. simpl. now rewrite Ascii.eqb_refl.
Qed.

Lemma startswith_split (p s : string) :
  startswith p s = true -> exists post, s = p +:+ post.
Proof.
  revert s. induction p as [|x p IH]; intros s H.
  - exists s. reflexivity.
  - destruct s as [|y s]; simpl in H; [discriminate |].
    destruct (Ascii.eqb x y) eqn:Hxy; [| discriminate].
    apply Ascii.eqb_eq in Hxy. subst y.
    destruct (IH s H) as [post ->]. exists post. reflexivity.
Qed.

Lemma contains_occurs (needle s : string) :
  contains needle s = true <-> occurs_in needle s.
Proof.
  split.
  - induction s as [|c s IH]; simpl.
    + destruct (startswith needle "") eqn:Hs; [| discriminate].
      intros _. destruct (startswith_split _ _ Hs) as [post Hp].
      exists "", post. exact Hp.
    + destruct (startswith needle (String c s)) eqn:Hs.
      * intros _. destruct (startswith_split _ _ Hs) as [post Hp].
        exists "", post. exact Hp.
      * intros H. destruct (IH H) as (pre & post & ->).
        exists (String c pre), post. reflexivity.
  - intros (pre & post & ->).
    induction pre as [|c pre IH].
    + rewrite append_nil.
      destruct (needle +:+ post) eqn:Heq; simpl.
      * rewrite <- Heq, startswith_app. reflexivity.
      * rewrite <- Heq, startswith_app. reflexivity.
    + rewrite append_cons. simpl. rewrite IH.
      now destruct (startswith needle (String c (pre +:+ needle +:+ post))).
Qed.

Lemma occurs_in_app_l (a s t : string) : occurs_in a s -> occurs_in a (s +:+ t).
Proof.
  intros (pre & post & ->). exists pre, (post +:+ t).
  now rewrite !append_assoc.
Qed.

Lemma occurs_in_app_r (a s t : string) : occurs_in a t -> occurs_in a (s +:+ t).
Proof.
  intros (pre & post & ->). exists (s +:+ pre), post.
  now rewrite !append_assoc.
Qed.

Lemma occurs_in_cons (a : string) (c : ascii) (t : string) :
  occurs_in a t -> occurs_in a (String c t).
Proof. intros (pre & post & ->). exists (String c pre), post. reflexivity. Qed.

Lemma occurs_in_trans (a b c : string) : occurs_in a b -> occurs_in b c -> occurs_in a c.
Proof.
  intros (p1 & q1 & ->) (p2 & q2 & ->).
  exists (p2 +:+ p1), (q1 +:+ q2). now rewrite !append_assoc.
Qed.

(** The first occurrence of a non-empty [old] is replaced by [new]. *)
Lemma replace_go_occurs (old new s : string) :
  contains old s = true -> old <> "" -> occurs_in new (replace_go old new 0 s).
Proof.
  intros H Hne. induction s as [|c s IH].
  - simpl in H. destruct old; [congruence | discriminate].
  - simpl in H. cbn [replace_go].
    destruct (startswith old (String c s)) eqn:Hs.
    + exists "", (replace_go old new (String.length old - 1) s). reflexivity.
    + apply occurs_in_cons, IH, H.
Qed.

Lemma replace_occurs (old new s : string) :
  old <> "" -> contains old s = true -> occurs_in new (replace old new s).
Proof.
  intros Hne H. destruct old as [|a old]; [congruence |].
  now apply replace_go_occurs.
Qed.

Lemma replace_absent (old new s : string) :
  old <> "" -> contains old s = false -> replace old new s = s.
Proof.
  intros Hne H.
  assert (Hr : replace old new s = replace_go old new 0 s)
    by (destruct old; [congruence | reflexivity]).
  rewrite Hr. clear Hr Hne.
  induction s as [|c s IH]; [reflexivity |].
  cbn [contains] in H. cbn [replace_go].
  destruct (startswith old (String c s)) eqn:Hs; [discriminate |].
  now rewrite IH.
Qed.

End PyStrFacts.

(** ** Facts on the bridge client and the supervisor *)

Arguments PyStr.replace : simpl never.
Arguments PyStr.contains : simpl never.
Arguments path_str : simpl never.
Arguments head_block : simpl never.
Arguments SHA256.hexdigest : simpl never.

Lemma count_app (f : event -> bool) (a b : list event) :
  count f (a ++ b) = count f a + count f b.
Proof.
  induction a as [|x a IH]; simpl; [reflexivity |].
  destruct (f x); simpl; now rewrite IH.
Qed.

Lemma count_zero_not_in (f : event -> bool) (evs : list event) (ev : event) :
  count f evs = 0 -> f ev = true -> ~ In ev evs.
Proof.
  intros Hc Hf. induction evs as [|x evs IH]; [intros [] |].
  simpl in Hc. intros [-> | H].
  - rewrite Hf in Hc. discriminate.
  - destruct (f x); [discriminate | exact (IH Hc H)].
Qed.

Lemma bridge_event_call (evs : list event) (c : office_call) (b : bool) :
  Forall bridge_event evs -> In (EvCall c b) evs -> c = Resolve.
Proof.
  intros HF HIn. rewrite Forall_forall in HF.
  apply list_elem_of_In in HIn.
  specialize (HF _ HIn). destruct c; simpl in HF; tauto.
Qed.

Ltac bridge_list :=
  repeat (apply List.Forall_cons; [simpl; tauto |]); try apply List.Forall_nil.

Section BridgeFacts.
Variable E : Env.

(** One supervisor start: it never raises and restarts once. *)
Lemma start_libreoffice_service_spec (w : World) :
  let r := start_libreoffice_service E w in
  outcome r = inr tt /\
  fs (world r) = fs w /\ next_tmp (world r) = next_tmp w /\
  calls (world r) = calls w /\ attempts (world r) = attempts w /\
  restarts (world r) = S (restarts w) /\
  Forall bridge_event (events r) /\
  count is_supervisor_start (events r) = 1 /\
  count is_resolve (events r) = 0.
Proof.
  unfold start_libreoffice_service, bind, try_except, supervisor_start, subprocess,
    sleep, log, emit.
  cbn.
  destruct (taskkill (office E) (restarts w)); cbn;
    [| destruct (popen (office E) (restarts w)); cbn];
    repeat split; bridge_list.
Qed.

(** One failed resolution followed by the [except] clause. *)
Lemma get_uno_context_rec_refused (d : nat) (w : World) (e : exn) :
  resolve (office E) (attempts w) = inl e ->
  exn_cls e = NoConnectException ->
  exists w1 evs,
    attempts w1 = S (attempts w) /\ fs w1 = fs w /\ next_tmp w1 = next_tmp w /\
    calls w1 = calls w /\
    Forall bridge_event evs /\
    count is_supervisor_start evs = 1 /\ count is_resolve evs = 1 /\
    ~ In (EvCall Resolve true) evs /\
    (let r := get_uno_context_rec E d w1 in
     get_uno_context_rec E (S d) w = mkRes (outcome r) (world r) (evs ++ events r)).
Proof.
  intros Hres Hcls.
  pose (w0 := mkWorld (fs w) (next_tmp w) (S (attempts w)) (restarts w) (calls w) (clock w)).
  destruct (start_libreoffice_service_spec w0)
    as (Ho & Hfs & Htmp & Hcalls & Hatt & _ & Hev & Hcs & Hcr).
  destruct (start_libreoffice_service E w0) as [o1 w1 ev1] eqn:Hstart.
  cbn in Ho, Hfs, Htmp, Hcalls, Hatt, Hev, Hcs, Hcr. subst o1.
  exists (mkWorld (fs w1) (next_tmp w1) (attempts w1) (restarts w1) (calls w1) (clock w1 + 5)),
    ([EvCall Resolve false; EvLog ERROR "Failed to connect to LibreOffice service" []]
       ++ ev1 ++ [EvSleep 5]).
  cbn. repeat split; try assumption.
  - do 2 (apply List.Forall_cons; [simpl; tauto |]).
    apply Forall_app. split; [assumption | bridge_list].
  - rewrite count_app, Hcs. reflexivity.
  - rewrite count_app, Hcr. reflexivity.
  - intros [H | [H | H]]; try discriminate.
    apply in_app_or in H. destruct H as [H | [H | []]]; [| discriminate].
    exact (count_zero_not_in is_resolve ev1 (EvCall Resolve true) Hcr eq_refl H).
  - unfold try_except_class, resolve_bridge. rewrite Hres.
    destruct (decide (exn_cls e = NoConnectException)) as [_ | Hn]; [| contradiction].
    unfold bind, log, emit, sleep. fold w0. rewrite Hstart.
    destruct (get_uno_context_rec E d _) as [o2 w2 ev2]. cbn.
    f_equal. now rewrite <- !app_assoc.
Qed.

(** A resolution that is not refused ends the call. *)
Lemma get_uno_context_rec_answered (d : nat) (w : World) :
  match resolve (office E) (attempts w) with
  | inl e => exn_cls e <> NoConnectException
  | inr _ => True
  end ->
  get_uno_context_rec E (S d) w =
    mkRes (resolve (office E) (attempts w))
      (mkWorld (fs w) (next_tmp w) (S (attempts w)) (restarts w) (calls w) (clock w))
      [EvCall Resolve (match resolve (office E) (attempts w) with
                       | inl _ => false | inr _ => true end)].
Proof.
  intros H. cbn. unfold try_except_class, resolve_bridge.
  destruct (resolve (office E) (attempts w)) as [e | c]; [| reflexivity].
  destruct (decide (exn_cls e = NoConnectException)); [contradiction | reflexivity].
Qed.

Lemma get_uno_context_rec_spec (d : nat) (w : World) :
  let r := get_uno_context_rec E d w in
  fs (world r) = fs w /\ next_tmp (world r) = next_tmp w /\
  calls (world r) = calls w /\
  Forall bridge_event (events r) /\
  (In (EvCall Resolve true) (events r) <-> exists c, outcome r = inr c).
Proof.
  revert w. induction d as [|d IH]; intros w.
  - cbn.
    split; [reflexivity |]. split; [reflexivity |]. split; [reflexivity |].
    split; [constructor |]. split.
    + intros [].
    + intros [c Hc]. discriminate.
  - destruct (resolve (office E) (attempts w)) as [e | c] eqn:Hres.
    + destruct (decide (exn_cls e = NoConnectException)) as [Hc | Hc].
      * destruct (get_uno_context_rec_refused d w e Hres Hc)
          as (w1 & evs & _ & Hfs & Htmp & Hcalls & Hev & _ & _ & Hno & Heq).
        cbn zeta in Heq. cbn zeta. rewrite Heq.
        destruct (IH w1) as (Hfs' & Htmp' & Hcalls' & Hev' & Hiff).
        cbn. repeat split.
        -- congruence.
        -- congruence.
        -- congruence.
        -- apply Forall_app. split; assumption.
        -- intros H. apply in_app_or in H. destruct H as [H | H]; [contradiction |].
           now apply Hiff.
        -- intros H. apply in_or_app. right. now apply Hiff.
      * cbn zeta. rewrite get_uno_context_rec_answered by (rewrite Hres; exact Hc).
        rewrite Hres. cbn.
        split; [reflexivity |]. split; [reflexivity |]. split; [reflexivity |].
        split; [bridge_list |]. split.
        -- intros [H | []]. discriminate.
        -- intros [c H]. discriminate.
    + cbn zeta. rewrite get_uno_context_rec_answered by (now rewrite Hres).
      rewrite Hres. cbn.
      split; [reflexivity |]. split; [reflexivity |]. split; [reflexivity |].
      split; [bridge_list |]. split.
      * intros _. now exists c.
      * intros _. now left.
Qed.

(** After [k] refusals the next answer is the result: [k] restarts and
    [k + 1] resolutions. *)
Lemma get_uno_context_rec_retries (k d : nat) (w : World) :
  k < d ->
  refuses (office E) (attempts w) k ->
  let r := get_uno_context_rec E d w in
  count is_supervisor_start (events r) = k /\
  count is_resolve (events r) = S k /\
  outcome r = resolve (office E) (attempts w + k).
Proof.
  revert d w. induction k as [|k IH]; intros d w Hd [Hfail Hnext].
  - destruct d as [|d]; [lia |].
    rewrite Nat.add_0_r in *.
    cbn zeta. rewrite get_uno_context_rec_answered by exact Hnext.
    cbn. repeat split.
  - destruct d as [|d]; [lia |].
    destruct (Hfail 0) as (e & He & Hc); [lia |].
    rewrite Nat.add_0_r in He.
    destruct (get_uno_context_rec_refused d w e He Hc)
      as (w1 & evs & Hatt & _ & _ & _ & _ & Hcs & Hcr & _ & Heq).
    cbn zeta in Heq. cbn zeta. rewrite Heq. cbn.
    destruct (IH d w1) as (H1 & H2 & H3); [lia | |].
    + rewrite Hatt. split.
      * intros i Hi. destruct (Hfail (S i)) as (e' & He' & Hc'); [lia |].
        exists e'. split; [| assumption].
        rewrite <- He'. f_equal. lia.
      * replace (S (attempts w) + k) with (attempts w + S k) by lia. exact Hnext.
    + rewrite !count_app, Hcs, Hcr, H1, H2, H3, Hatt.
      repeat split. f_equal. lia.
Qed.
End BridgeFacts.

(** ** Facts on the conversions *)

Lemma class_binds_second_definition :
  class_namespace !! "enhance_html_output" = Some Def_enhance_html_output_226.
Proof. vm_compute. reflexivity. Qed.

Lemma enhance_html_output_bound (p : path) :
  enhance_html_output p = enhance_html_output_226 p.
Proof. unfold enhance_html_output. now rewrite class_binds_second_definition. Qed.

Lemma enhance_html_output_226_run (p : path) (w : World) :
  enhance_html_output_226 p w =
    match fs w !! p with
    | Some (Utf8Text s) =>
        mkRes (inr PyNone)
          (set_fs (<[p := Utf8Text (PyStr.replace "<head>" head_block s)]> (fs w)) w) []
    | Some (Undecodable _) =>
        mkRes (inr PyNone) w
          [EvLog ERROR "HTML enhancement failed: {}" ["'utf-8' codec can't decode"]]
    | None =>
        mkRes (inr PyNone) w
          [EvLog ERROR "HTML enhancement failed: {}" ["No such file or directory"]]
    end.
Proof.
  unfold enhance_html_output_226, try_except, bind, read_text, write_text, ret, log, emit.
  destruct (fs w !! p) as [[s | b] |]; reflexivity.
Qed.

Lemma bridge_events_exclude (f : event -> bool) (evs : list event) :
  (forall ev, bridge_event ev -> f ev = false) ->
  Forall bridge_event evs -> existsb f evs = false.
Proof.
  intros Hf HF. induction HF as [|x l Hx _ IH]; [reflexivity |].
  simpl. now rewrite (Hf x Hx), IH.
Qed.

Lemma bridge_event_not_file (ev : event) : bridge_event ev -> is_file_event ev = false.
Proof. destruct ev; simpl; tauto. Qed.

Lemma bridge_event_not_failure (formats : list string) (ev : event) :
  (forall fmt, In fmt bridge_formats -> existsb (String.eqb fmt) formats = false) ->
  bridge_event ev -> logs_error formats ev = false.
Proof.
  intros Hf. destruct ev as [lvl fmt args | | | | | | |]; simpl; try tauto.
  intros H. destruct lvl; [reflexivity | now apply Hf].
Qed.

Lemma bridge_formats_not_conversion (fmt : string) :
  In fmt bridge_formats -> existsb (String.eqb fmt) conversion_failure_formats = false.
Proof. intros [<- | [<- | [<- | []]]]; reflexivity. Qed.

Lemma bridge_formats_not_handler (fmt : string) :
  In fmt bridge_formats -> existsb (String.eqb fmt) handler_error_formats = false.
Proof. intros [<- | [<- | [<- | []]]]; reflexivity. Qed.

Lemma bridge_no_file_event (evs : list event) :
  Forall bridge_event evs -> existsb is_file_event evs = false.
Proof. apply bridge_events_exclude, bridge_event_not_file. Qed.

Lemma bridge_no_conversion_failure (evs : list event) :
  Forall bridge_event evs -> existsb (logs_error conversion_failure_formats) evs = false.
Proof.
  apply bridge_events_exclude. intros ev.
  apply bridge_event_not_failure, bridge_formats_not_conversion.
Qed.

Lemma bridge_no_handler_error (evs : list event) :
  Forall bridge_event evs -> existsb (logs_error handler_error_formats) evs = false.
Proof.
  apply bridge_events_exclude. intros ev.
  apply bridge_event_not_failure, bridge_formats_not_handler.
Qed.

Lemma not_completed_after_bridge (evs tail : list event) (c : office_call) :
  Forall bridge_event evs -> c <> Resolve ->
  ~ In (EvCall c true) tail -> ~ In (EvCall c true) (evs ++ tail).
Proof.
  intros Hev Hc Ht H. apply in_app_or in H. destruct H as [H | H]; [| auto].
  apply Hc. exact (bridge_event_call _ _ _ Hev H).
Qed.

(** Case analysis on the answers that decide a run. *)
Ltac case_step :=
  match goal with
  | |- context [match ?x with _ => _ end] =>
      lazymatch x with
      | context [match _ with _ => _ end] => fail
      | _ => destruct x eqn:?
      end
  end.

Ltac conversion_cases E w :=
  unfold docx_to_html, html_to_docx, try_except, bind, get_uno_context;
  let Hfs := fresh "Hfs" in
  let Htmp := fresh "Htmp" in
  let Hcalls := fresh "Hcalls" in
  let Hev := fresh "Hev" in
  let Hiff := fresh "Hiff" in
  destruct (get_uno_context_rec_spec E (recursion_limit E) w)
    as (Hfs & Htmp & Hcalls & Hev & Hiff);
  destruct (get_uno_context_rec E (recursion_limit E) w) as [[? | ?] ? ?];
  cbn in Hfs, Htmp, Hcalls, Hev, Hiff;
  unfold document_call, set_file, apply_template_styles, path_exists, try_except, ret;
  unfold remote;
  try rewrite enhance_html_output_bound;
  repeat (first [ progress cbn
                | rewrite enhance_html_output_226_run
                | rewrite lookup_insert_eq
                | rewrite lookup_delete_eq
                | case_step ]).

Ltac solve_existsb Hev :=
  cbn; rewrite ?existsb_app; cbn;
  rewrite ?(bridge_no_file_event _ Hev), ?(bridge_no_conversion_failure _ Hev),
    ?(bridge_no_handler_error _ Hev);
  reflexivity.

(** The call [c] did not return in a run whose events are in the goal's
    hypothesis [Hall]. *)
Ltac refute_call Hall Hev Hiff c :=
  let Hc := fresh "Hc" in
  assert (Hc := Hall c ltac:(simpl; tauto));
  unfold completed in Hc; cbn in Hc; rewrite ?in_app_iff in Hc; cbn in Hc;
  repeat match goal with
         | H : _ \/ _ |- _ => destruct H
         | H : False |- _ => destruct H
         end;
  try discriminate;
  try match goal with
      | H : In (EvCall Resolve true) _ |- _ =>
          apply Hiff in H; destruct H as [? H]; discriminate H
      end;
  match goal with
  | H : In (EvCall _ true) _ |- _ =>
      apply (bridge_event_call _ _ _ Hev) in H; discriminate H
  end.

Ltac show_completed Hiff :=
  let c := fresh "c" in
  let Hc := fresh "Hc" in
  intros c Hc; simpl in Hc; unfold completed; cbn; rewrite ?in_app_iff;
  repeat destruct Hc as [<- | Hc]; try contradiction;
  first [ left; apply Hiff; eexists; reflexivity
        | right; simpl; intuition ].

Section ConversionFacts.
Variable E : Env.

Lemma docx_to_html_spec (p q : path) (w : World) :
  let r := docx_to_html E p q w in
  exists b, outcome r = inr b /\
    next_tmp (world r) = next_tmp w /\
    (forall p', p' <> q -> fs (world r) !! p' = fs w !! p') /\
    existsb is_file_event (events r) = false /\
    conversion_failed r = negb b /\
    exception_caught r = false /\
    (b = true <->
     all_completed [Resolve; CreateDesktop; LoadComponentFromURL p; DocumentProperties;
                    StoreToURL q; CloseDocument] r) /\
    (b = true -> forall h, fs (world r) !! q = Some (Utf8Text h) ->
       exists d s, store_to_url (office E) (S (S (S (calls w)))) d q
                     = inr (Some (Utf8Text s)) /\
                     h = PyStr.replace "<head>" head_block s).
Proof.
  cbn zeta.
  conversion_cases E w.
  all: eexists; split; [reflexivity |].
  all: split; [cbn; congruence |].
  all: split;
    [intros p' Hp'; cbn;
     rewrite ?lookup_insert_ne, ?lookup_delete_ne by congruence; congruence |].
  all: split; [solve_existsb Hev |].
  all: split; [unfold conversion_failed; solve_existsb Hev |].
  all: split; [unfold exception_caught; solve_existsb Hev |].
  all: split;
    [split;
     [ first [ discriminate | intros _; show_completed Hiff ]
     | first [ reflexivity
             | intros Hall; exfalso;
               first [ refute_call Hall Hev Hiff Resolve
                     | refute_call Hall Hev Hiff CreateDesktop
                     | refute_call Hall Hev Hiff (LoadComponentFromURL p)
                     | refute_call Hall Hev Hiff DocumentProperties
                     | refute_call Hall Hev Hiff (StoreToURL q)
                     | refute_call Hall Hev Hiff CloseDocument ] ] ] |].
  all: try discriminate.
  intros _ h [= <-]. rewrite <- Hcalls. eauto.
Qed.

Lemma html_to_docx_spec (p q : path) (t : option string) (w : World) :
  let r := html_to_docx E p q t w in
  exists b, outcome r = inr b /\
    next_tmp (world r) = next_tmp w /\
    (forall p', p' <> q -> fs (world r) !! p' = fs w !! p') /\
    existsb is_file_event (events r) = false /\
    conversion_failed r = negb b /\
    exception_caught r = false /\
    (b = true <->
     all_completed [Resolve; CreateDesktop; LoadComponentFromURL p;
                    StoreToURL q; CloseDocument] r).
Proof.
  cbn zeta.
  conversion_cases E w.
  all: eexists; split; [reflexivity |].
  all: split; [cbn; congruence |].
  all: split;
    [intros p' Hp'; cbn;
     rewrite ?lookup_insert_ne, ?lookup_delete_ne by congruence; congruence |].
  all: split; [solve_existsb Hev |].
  all: split; [unfold conversion_failed; solve_existsb Hev |].
  all: split; [unfold exception_caught; solve_existsb Hev |].
  all: split;
     [ first [ discriminate | intros _; show_completed Hiff ]
     | first [ reflexivity
             | intros Hall; exfalso;
               first [ refute_call Hall Hev Hiff Resolve
                     | refute_call Hall Hev Hiff CreateDesktop
                     | refute_call Hall Hev Hiff (LoadComponentFromURL p)
                     | refute_call Hall Hev Hiff (StoreToURL q)
                     | refute_call Hall Hev Hiff CloseDocument ] ] ].
Qed.
End ConversionFacts.

(** ** Facts on the single-file endpoints *)

Lemma no_file_event_unlink (evs : list event) (p : path) :
  existsb is_file_event evs = false -> ~ In (EvUnlink p) evs.
Proof.
  intros H HIn. assert (Ht : existsb is_file_event evs = true).
  { apply existsb_exists. exists (EvUnlink p). split; [assumption | reflexivity]. }
  congruence.
Qed.

Lemma no_file_event_temp (evs : list event) (p : path) :
  existsb is_file_event evs = false -> ~ In (EvTempFile p) evs.
Proof.
  intros H HIn. assert (Ht : existsb is_file_event evs = true).
  { apply existsb_exists. exists (EvTempFile p). split; [assumption | reflexivity]. }
  congruence.
Qed.

Ltac solve_nothing_unlinked :=
  let HIn := fresh "HIn" in
  intros ? HIn; cbn in HIn; rewrite ?in_app_iff in HIn; cbn in HIn;
  repeat destruct HIn as [HIn | HIn];
  try discriminate; try contradiction;
  eapply no_file_event_unlink; eassumption.

Ltac use_html_to_docx_spec :=
  match goal with
  | |- context [html_to_docx ?E ?p ?q ?t ?w] =>
      let b := fresh "b" in
      let Hb := fresh "Hb" in
      let Htmp := fresh "Htmp" in
      let Hframe := fresh "Hframe" in
      let Hfile := fresh "Hfile" in
      let Hconv := fresh "Hconv" in
      let Hexc := fresh "Hexc" in
      let Hall := fresh "Hall" in
      destruct (html_to_docx_spec E p q t w)
        as (b & Hb & Htmp & Hframe & Hfile & Hconv & Hexc & Hall);
      unfold conversion_failed, exception_caught in Hconv, Hexc;
      destruct (html_to_docx E p q t w) as [? ? ?];
      cbn [outcome world events] in Hb, Htmp, Hframe, Hfile, Hconv, Hexc, Hall;
      subst
  end.

Section HandlerFacts.
Variable E : Env.

Lemma convert_docx_to_html_run (req : Request) (w : World) (f : FileStorage) :
  files_get "file" (files req) = Some f ->
  filename f <> "" ->
  let docx := TmpPath (next_tmp w) ".docx" in
  let html := TmpPath (S (next_tmp w)) ".html" in
  let r := docx_to_html E docx html (staged f w) in
  convert_docx_to_html E req w =
    match outcome r, fs (world r) !! html with
    | inr true, Some (Utf8Text h) =>
        mkRes (inr (jsonify (JObj [ ("success", JBool true);
                                    ("html", JStr h);
                                    ("hash", JStr (content_hash E h));
                                    ("timestamp", JNum (clock (world r))) ])))
          (set_fs (delete html (delete docx (fs (world r)))) (world r))
          ([EvTempFile docx; EvTempFile html] ++ events r ++ [EvUnlink docx; EvUnlink html])
    | inr true, Some (Undecodable _) =>
        mkRes (inr (jsonify_status (error_body "'utf-8' codec can't decode") 500))
          (world r)
          ([EvTempFile docx; EvTempFile html] ++ events r ++
           [EvLog ERROR "DOCX to HTML conversion error: {}" ["'utf-8' codec can't decode"]])
    | _, _ =>
        mkRes (inr (jsonify_status (error_body "Conversion failed") 500))
          (world r) ([EvTempFile docx; EvTempFile html] ++ events r)
    end.
Proof.
  intros Hf Hname. cbn zeta.
  destruct (docx_to_html_spec E (TmpPath (next_tmp w) ".docx")
              (TmpPath (S (next_tmp w)) ".html") (staged f w))
    as (b & Hb & _ & Hframe & _).
  specialize (Hframe (TmpPath (next_tmp w) ".docx") ltac:(congruence)).
  unfold convert_docx_to_html, try_except, bind. rewrite Hf.
  destruct (String.eqb (filename f) "") eqn:Hn; [apply String.eqb_eq in Hn; contradiction |].
  unfold named_temporary_file, file_save. cbn.
  fold (staged f w).
  destruct (docx_to_html E _ _ (staged f w)) as [o w3 ev3].
  cbn in Hb, Hframe. subst o.
  unfold staged in Hframe. cbn in Hframe.
  rewrite lookup_insert_ne, lookup_insert_eq in Hframe by congruence.
  destruct b; cbn; [| now rewrite app_nil_r].
  unfold path_exists, read_text, unlink, time_time, ret.
  destruct (fs w3 !! TmpPath (S (next_tmp w)) ".html") as [[h | raw] |] eqn:Hh.
  - cbn. rewrite Hh. cbn. rewrite Hframe. cbn.
    rewrite lookup_delete_ne by congruence. rewrite Hh. cbn.
    reflexivity.
  - cbn. rewrite Hh. cbn. now rewrite app_nil_r.
  - cbn. now rewrite app_nil_r.
Qed.

Lemma convert_html_to_docx_spec (req : Request) (w : World) :
  let r := convert_html_to_docx E req w in
  exists resp, outcome r = inr resp /\
    nothing_unlinked r /\
    (internal_failure r = true -> is_error_response 500 resp).
Proof.
  cbn zeta.
  unfold convert_html_to_docx, try_except, bind, lift, temp_write, named_temporary_file,
    write_text, raise, ret, log, emit, send_file, path_exists.
  repeat (first [ progress cbn | use_html_to_docx_spec | case_step ]).
  all: eexists; split; [reflexivity |].
  all: split; [solve_nothing_unlinked |].
  all: unfold internal_failure, conversion_failed, exception_caught; cbn;
    rewrite ?existsb_app; cbn; rewrite ?Hconv, ?Hexc; cbn.
  all: first [ discriminate | intros _; split; [reflexivity | eexists; reflexivity] ].
Qed.

Lemma convert_docx_to_html_spec (req : Request) (w : World) :
  let r := convert_docx_to_html E req w in
  exists resp, outcome r = inr resp /\
    (internal_failure r = true -> is_error_response 500 resp) /\
    (status resp <> 500%Z -> temp_files_deleted r) /\
    (status resp = 200%Z ->
     exists h t s,
       resp = jsonify (JObj [ ("success", JBool true);
                              ("html", JStr h);
                              ("hash", JStr (content_hash E h));
                              ("timestamp", JNum t) ]) /\
       exported_text E w s /\
       h = PyStr.replace "<head>" head_block s).
Proof.
  cbn zeta.
  destruct (files_get "file" (files req)) as [f |] eqn:Hf.
  2: { unfold convert_docx_to_html, try_except, bind, ret. rewrite Hf. cbn.
       eexists. split; [reflexivity |].
       split; [discriminate |]. split; [intros _ p [] | discriminate]. }
  destruct (String.eqb (filename f) "") eqn:Hn.
  { unfold convert_docx_to_html, try_except, bind, ret. rewrite Hf, Hn. cbn.
    eexists. split; [reflexivity |].
    split; [discriminate |]. split; [intros _ p [] | discriminate]. }
  apply String.eqb_neq in Hn.
  rewrite (convert_docx_to_html_run req w f Hf Hn).
  destruct (docx_to_html_spec E (TmpPath (next_tmp w) ".docx")
              (TmpPath (S (next_tmp w)) ".html") (staged f w))
    as (b & Hb & _ & _ & Hfile & Hconv & Hexc & _ & Hhead).
  unfold conversion_failed, exception_caught in Hconv, Hexc.
  destruct (docx_to_html E _ _ (staged f w)) as [o w3 ev3].
  cbn [outcome world events] in *. subst o.
  destruct b;
    [destruct (fs w3 !! TmpPath (S (next_tmp w)) ".html") as [[h | raw] |] eqn:Hh |].
  all: eexists; split; [reflexivity |].
  all: split;
    [unfold internal_failure, conversion_failed, exception_caught; cbn;
     rewrite ?existsb_app; cbn; rewrite ?Hconv, ?Hexc; cbn;
     first [ discriminate | intros _; split; [reflexivity | eexists; reflexivity] ] |].
  all: split; [| try discriminate].
  all: try (intros Hs; exfalso; apply Hs; reflexivity).
  - intros _ p HIn. cbn in HIn.
    destruct HIn as [[= <-] | [[= <-] | HIn]]; cbn.
    + rewrite lookup_delete_ne by congruence. apply lookup_delete_eq.
    + apply lookup_delete_eq.
    + apply in_app_or in HIn. destruct HIn as [HIn | HIn].
      * exfalso. exact (no_file_event_temp _ _ Hfile HIn).
      * destruct HIn as [HIn | [HIn | []]]; discriminate.
  - intros _. destruct (Hhead eq_refl h eq_refl) as (d & s & Hs & ->).
    eexists _, _, s. split; [reflexivity | split; [exists d; exact Hs | reflexivity]].
Qed.
End HandlerFacts.

(** ** Facts on the batch endpoint *)

Section BatchFacts.
Variable E : Env.

(** One iteration of the loop. *)
Lemma batch_loop_step (f : FileStorage) (rest : list FileStorage) (results : list json)
    (w : World) :
  let docx := TmpPath (next_tmp w) ".docx" in
  let html := TmpPath (S (next_tmp w)) ".html" in
  let r := docx_to_html E docx html (staged f w) in
  let continue entry :=
    let r' := batch_loop E rest (results ++ [entry]) (cleaned docx html (world r)) in
    mkRes (outcome r') (world r')
      ([EvTempFile docx; EvTempFile html] ++ events r ++
       [EvUnlink docx; EvUnlink html] ++ events r') in
  batch_loop E (f :: rest) results w =
    match outcome r, fs (world r) !! html with
    | inr true, Some (Utf8Text h) =>
        continue (success_entry (hashlib_sha256_hexdigest E) f h)
    | inr true, Some (Undecodable _) =>
        mkRes (inl (Exn UnicodeDecodeError "'utf-8' codec can't decode")) (world r)
          ([EvTempFile docx; EvTempFile html] ++ events r)
    | inr true, None =>
        mkRes (inl (Exn FileNotFoundError "No such file or directory")) (world r)
          ([EvTempFile docx; EvTempFile html] ++ events r)
    | _, Some _ => continue (failure_entry f)
    | _, None =>
        mkRes (inl (Exn FileNotFoundError "No such file or directory"))
          (set_fs (delete docx (fs (world r))) (world r))
          ([EvTempFile docx; EvTempFile html] ++ events r ++ [EvUnlink docx])
    end.
Proof.
  cbn zeta.
  destruct (docx_to_html_spec E (TmpPath (next_tmp w) ".docx")
              (TmpPath (S (next_tmp w)) ".html") (staged f w))
    as (b & Hb & _ & Hframe & _).
  specialize (Hframe (TmpPath (next_tmp w) ".docx") ltac:(congruence)).
  cbn [batch_loop]. unfold bind at 1 2 3 4.
  unfold named_temporary_file, file_save. cbn.
  fold (staged f w).
  destruct (docx_to_html E _ _ (staged f w)) as [o w3 ev3].
  cbn [outcome world events] in *. subst o.
  unfold staged in Hframe. cbn in Hframe.
  rewrite lookup_insert_ne, lookup_insert_eq in Hframe by congruence.
  unfold bind, read_text, unlink, ret, cleaned.
  destruct b; destruct (fs w3 !! TmpPath (S (next_tmp w)) ".html") as [[h | raw] |] eqn:Hh;
    cbn; rewrite ?Hh; cbn; rewrite ?Hframe; cbn;
    rewrite ?lookup_delete_ne by congruence; rewrite ?Hh; cbn.
  all: unfold set_fs, success_entry, failure_entry, content_hash; cbn.
  all: try match goal with
           | |- context [batch_loop ?e ?l ?a ?b] => destruct (batch_loop e l a b)
           end.
  all: cbn; rewrite ?app_nil_r; reflexivity.
Qed.

Lemma batch_loop_spec (uploads : list FileStorage) (results : list json) (w : World) :
  let r := batch_loop E uploads results w in
  next_tmp w <= next_tmp (world r) /\
  (forall n sfx, n < next_tmp w ->
     fs (world r) !! TmpPath n sfx = fs w !! TmpPath n sfx) /\
  exception_caught r = false /\
  (forall rs, outcome r = inr rs ->
     (exists new, rs = results ++ new /\
        Forall2 (batch_entry (hashlib_sha256_hexdigest E)) uploads new) /\
     temp_files_deleted r).
Proof.
  revert results w. induction uploads as [|f rest IH]; intros results w.
  - cbn. split; [lia |]. split; [reflexivity |]. split; [reflexivity |].
    intros rs [= <-]. split.
    + exists []. split; [now rewrite app_nil_r | constructor].
    + intros p [].
  - cbn zeta. rewrite batch_loop_step. cbn zeta.
    destruct (docx_to_html_spec E (TmpPath (next_tmp w) ".docx")
                (TmpPath (S (next_tmp w)) ".html") (staged f w))
      as (b & Hb & Htmp & Hframe & Hfile & _ & Hexc & _).
    unfold exception_caught in Hexc.
    destruct (docx_to_html E _ _ (staged f w)) as [o w3 ev3].
    cbn [outcome world events] in *. subst o.
    unfold staged in Htmp. cbn in Htmp.
    assert (Hlow : forall n sfx, n < next_tmp w ->
              fs w3 !! TmpPath n sfx = fs w !! TmpPath n sfx).
    { intros n sfx Hn. rewrite Hframe by (intros [=]; lia).
      cbn. rewrite !lookup_insert_ne by (intros [=]; lia). reflexivity. }
    set (docx := TmpPath (next_tmp w) ".docx") in *.
    set (html := TmpPath (S (next_tmp w)) ".html") in *.
    assert (Hcont : forall entry,
      batch_entry (hashlib_sha256_hexdigest E) f entry ->
      let r' := batch_loop E rest (results ++ [entry]) (cleaned docx html w3) in
      let r := mkRes (outcome r') (world r')
                 ([EvTempFile docx; EvTempFile html] ++ ev3 ++
                  [EvUnlink docx; EvUnlink html] ++ events r') in
      next_tmp w <= next_tmp (world r) /\
      (forall n sfx, n < next_tmp w ->
         fs (world r) !! TmpPath n sfx = fs w !! TmpPath n sfx) /\
      exception_caught r = false /\
      (forall rs, outcome r = inr rs ->
         (exists new, rs = results ++ new /\
            Forall2 (batch_entry (hashlib_sha256_hexdigest E)) (f :: rest) new) /\
         temp_files_deleted r)).
    { intros entry Hentry.
      destruct (IH (results ++ [entry]) (cleaned docx html w3))
        as (Hn' & Hlow' & Hexc' & Hres').
      unfold exception_caught in Hexc'.
      destruct (batch_loop E rest _ (cleaned docx html w3)) as [o' w' ev'].
      cbn [outcome world events cleaned set_fs next_tmp fs] in *.
      split; [lia |]. split.
      { intros n sfx Hn. rewrite Hlow' by lia.
        unfold docx, html. rewrite !lookup_delete_ne by (intros [=]; lia).
        now apply Hlow. }
      split.
      { unfold exception_caught. cbn. rewrite !existsb_app. cbn.
        now rewrite Hexc, Hexc'. }
      intros rs ->. destruct (Hres' rs eq_refl) as ((new & -> & Hnew) & Hdel).
      split.
      { exists (entry :: new). split; [now rewrite <- app_assoc | now constructor]. }
      intros p HIn. cbn in HIn. unfold temp_files_deleted in Hdel. cbn in Hdel. cbn.
      destruct HIn as [[= <-] | [[= <-] | HIn]].
      - unfold docx. rewrite Hlow' by lia. fold docx.
        rewrite lookup_delete_ne by (unfold docx, html; congruence).
        apply lookup_delete_eq.
      - unfold html. rewrite Hlow' by lia. fold html.
        apply lookup_delete_eq.
      - apply in_app_or in HIn. destruct HIn as [HIn | HIn].
        + exfalso. exact (no_file_event_temp _ _ Hfile HIn).
        + destruct HIn as [[=] | [[=] | HIn]]. now apply Hdel. }
    destruct b; destruct (fs w3 !! html) as [[h | raw] |] eqn:Hh.
    all: first
      [ apply Hcont; first [ left; eexists; reflexivity | right; reflexivity ]
      | cbn; split; [lia |]; split;
        [ intros n sfx Hn;
          rewrite ?lookup_delete_ne by (unfold docx; intros [=]; lia); now apply Hlow |];
        split;
        [ unfold exception_caught; cbn; rewrite ?existsb_app; cbn; now rewrite Hexc |];
        intros rs; discriminate ].
Qed.

Lemma batch_convert_spec (req : Request) (w : World) :
  let r := batch_convert E req w in
  let uploads := files_getlist "files" (files req) in
  exists resp, outcome r = inr resp /\
    (uploads = [] -> is_error_response 400 resp /\ events r = [] /\ world r = w) /\
    (exception_caught r = true -> is_error_response 500 resp) /\
    (uploads <> [] -> exception_caught r = false ->
     status resp = 200%Z /\
     exists results,
       resp_body resp =
         JsonBody (JObj [ ("success", JBool true);
                          ("results", JArr results);
                          ("processed", JNum (Z.of_nat (List.length uploads))) ]) /\
       Forall2 (batch_entry (hashlib_sha256_hexdigest E)) uploads results) /\
    (status resp <> 500%Z -> temp_files_deleted r).
Proof.
  cbn zeta. unfold batch_convert, try_except.
  destruct (files_getlist "files" (files req)) as [|f rest] eqn:Hup.
  - cbn. eexists. split; [reflexivity |].
    split; [intros _; repeat split; eexists; reflexivity |].
    split; [discriminate |]. split; [congruence |]. intros _ p [].
  - destruct (batch_loop_spec (f :: rest) [] w) as (_ & _ & Hexc & Hres).
    unfold exception_caught in Hexc. unfold bind.
    destruct (batch_loop E (f :: rest) [] w) as [[e | rs] w' ev'];
      cbn [outcome world events] in *.
    + cbn. eexists. split; [reflexivity |].
      split; [discriminate |].
      split; [intros _; split; [reflexivity | eexists; reflexivity] |].
      split.
      * intros _. unfold exception_caught. cbn. rewrite existsb_app. cbn.
        rewrite Bool.orb_true_r. discriminate.
      * intros Hs. exfalso. now apply Hs.
    + destruct (Hres rs eq_refl) as ((new & Hrs & Hnew) & Hdel).
      cbn in Hrs. subst rs.
      cbn. eexists. split; [reflexivity |].
      split; [discriminate |].
      split.
      * unfold exception_caught. cbn. rewrite app_nil_r, Hexc. discriminate.
      * split.
        -- intros _ _. split; [reflexivity |]. exists new. split; [| assumption].
           cbn. rewrite <- (Forall2_length _ _ _ Hnew). reflexivity.
        -- intros _ p HIn. cbn in HIn. rewrite app_nil_r in HIn.
           exact (Hdel p HIn).
Qed.
End BatchFacts.

(** ** The entries of the batch response and the conversions behind them *)

Section BatchEntries.
Variable E : Env.


Lemma batch_loop_entries (uploads : list FileStorage) (results : list json) (w : World)
    (rs : list json) :
  outcome (batch_loop E uploads results w) = inr rs ->
  exists new, rs = results ++ new /\
    zip_with (entry_of (hashlib_sha256_hexdigest E)) uploads (batch_conversions E uploads w)
      = map Some new.
Proof.
  revert results w. induction uploads as [| f rest IH]; intros results w.
  - cbn. intros [= <-]. exists []. split; [now rewrite app_nil_r | reflexivity].
  - rewrite batch_loop_step. cbn zeta. cbn [batch_conversions zip_with].
    destruct (docx_to_html_spec E (TmpPath (next_tmp w) ".docx")
                (TmpPath (S (next_tmp w)) ".html") (staged f w)) as (b & Hb & _).
    destruct (docx_to_html E _ _ (staged f w)) as [o w3 ev3].
    cbn [outcome world events] in *. subst o.
    destruct b; destruct (fs w3 !! TmpPath (S (next_tmp w)) ".html") as [[h | raw] |];
      cbn [outcome]; try discriminate; intros Ho;
      destruct (IH _ _ Ho) as (new & -> & Hnew);
      eexists (_ :: new); (split; [now rewrite <- app_assoc |]);
      cbn [entry_of map]; now rewrite Hnew.
Qed.

Lemma batch_convert_entries (req : Request) (w : World) :
  let uploads := files_getlist "files" (files req) in
  let r := batch_convert E req w in
  uploads <> [] ->
  exception_caught r = false ->
  exists results,
    outcome r = inr (jsonify (JObj [ ("success", JBool true);
                                     ("results", JArr results);
                                     ("processed", JNum (Z.of_nat (List.length results))) ])) /\
    zip_with (entry_of (hashlib_sha256_hexdigest E)) uploads (batch_conversions E uploads w)
      = map Some results.
Proof.
  cbn zeta. unfold batch_convert, try_except.
  destruct (files_getlist "files" (files req)) as [| f rest] eqn:Hup; [congruence |].
  intros _. unfold bind.
  pose proof (batch_loop_entries (f :: rest) [] w) as Hent.
  destruct (batch_loop E (f :: rest) [] w) as [[e | rs] w' ev'];
    cbn [outcome world events] in *.
  - cbn. unfold exception_caught. cbn. rewrite existsb_app. cbn.
    rewrite Bool.orb_true_r. discriminate.
  - intros _. destruct (Hent rs eq_refl) as (new & Hrs & Hnew). cbn in Hrs. subst rs.
    exists new. cbn. split; [reflexivity | exact Hnew].
Qed.

End BatchEntries.

(** ** The digest function has no influence beyond the ['hash'] members *)

Section DigestIndependence.
Variable o : Office.
Variable depth : nat.
Variables h1 h2 : list byte -> string.

Let E1 := Build_Env o depth h1.
Let E2 := Build_Env o depth h2.

Lemma docx_to_html_digest (p q : path) : docx_to_html E1 p q = docx_to_html E2 p q.
Proof. reflexivity. Qed.

Lemma convert_html_to_docx_digest (req : Request) :
  convert_html_to_docx E1 req = convert_html_to_docx E2 req.
Proof. reflexivity. Qed.

Lemma convert_docx_to_html_digest (req : Request) (w : World) :
  let r1 := convert_docx_to_html E1 req w in
  let r2 := convert_docx_to_html E2 req w in
  world r1 = world r2 /\ events r1 = events r2 /\
  outcome_without_hash (outcome r1) = outcome_without_hash (outcome r2).
Proof.
  cbn zeta.
  destruct (files_get "file" (files req)) as [f |] eqn:Hf.
  2: { unfold convert_docx_to_html, try_except, bind, ret. rewrite Hf. cbn. auto. }
  destruct (String.eqb (filename f) "") eqn:Hn.
  { unfold convert_docx_to_html, try_except, bind, ret. rewrite Hf, Hn. cbn. auto. }
  apply String.eqb_neq in Hn.
  rewrite !(convert_docx_to_html_run _ req w f Hf Hn).
  rewrite <- docx_to_html_digest.
  destruct (docx_to_html E1 _ _ (staged f w)) as [[e | [|]] w3 ev3]; cbn; auto.
  destruct (fs w3 !! _) as [[h | raw] |]; cbn; auto.
Qed.

Lemma batch_loop_digest (uploads : list FileStorage) (rs1 rs2 : list json) (w : World) :
  List.map without_hash rs1 = List.map without_hash rs2 ->
  let r1 := batch_loop E1 uploads rs1 w in
  let r2 := batch_loop E2 uploads rs2 w in
  world r1 = world r2 /\ events r1 = events r2 /\
  match outcome r1, outcome r2 with
  | inl e1, inl e2 => e1 = e2
  | inr a1, inr a2 => List.map without_hash a1 = List.map without_hash a2
  | _, _ => False
  end.
Proof.
  revert rs1 rs2 w. induction uploads as [|f rest IH]; intros rs1 rs2 w Hrs.
  - cbn. auto.
  - cbn zeta. rewrite !batch_loop_step. cbn zeta.
    rewrite <- docx_to_html_digest.
    destruct (docx_to_html E1 _ _ (staged f w)) as [ob w3 ev3].
    cbn [outcome world events].
    assert (Hcont : forall e1 e2, without_hash e1 = without_hash e2 ->
              List.map without_hash (rs1 ++ [e1]) = List.map without_hash (rs2 ++ [e2])).
    { intros e1 e2 He. rewrite !map_app. cbn. now rewrite Hrs, He. }
    destruct ob as [e | [|]]; destruct (fs w3 !! _) as [[h | raw] |]; cbn; auto.
    all: match goal with
         | |- context [batch_loop E1 _ (_ ++ [?e1]) ?w'] =>
             match goal with
             | |- context [batch_loop E2 _ (_ ++ [?e2]) w'] =>
                 destruct (IH (rs1 ++ [e1]) (rs2 ++ [e2]) w' (Hcont e1 e2 eq_refl))
                   as (Hw & Hev & Ho)
             end
         end.
    all: rewrite Hw, Hev; auto.
Qed.

Lemma batch_convert_digest (req : Request) (w : World) :
  let r1 := batch_convert E1 req w in
  let r2 := batch_convert E2 req w in
  world r1 = world r2 /\ events r1 = events r2 /\
  outcome_without_hash (outcome r1) = outcome_without_hash (outcome r2).
Proof.
  cbn zeta. unfold batch_convert, try_except, bind.
  destruct (files_getlist "files" (files req)) as [|f rest]; [cbn; auto |].
  destruct (batch_loop_digest (f :: rest) [] [] w eq_refl) as (Hw & Hev & Ho).
  destruct (batch_loop E1 (f :: rest) [] w) as [[e1 | a1] w1 ev1];
    destruct (batch_loop E2 (f :: rest) [] w) as [[e2 | a2] w2 ev2];
    cbn in *; try contradiction; subst; auto.
  assert (Hl : List.length a1 = List.length a2).
  { rewrite <- (List.length_map without_hash a1), Ho. apply List.length_map. }
  rewrite Ho, Hl. auto.
Qed.
End DigestIndependence.

(** ** The bridge client: C1 *)

(** C1, as stated, fails: when the bridge refuses the first two
    resolutions, one call of [get_uno_context] restarts the supervisor twice
    and resolves three times, so it reconnects more than once. *)
Lemma get_uno_context_reconnects_twice :
  let r := get_uno_context (Scenario.env Scenario.slow_start) Scenario.world0 in
  resolve Scenario.slow_start (attempts Scenario.world0) = inl Scenario.no_connect /\
  restarts_of r = 2 /\ resolutions_of r = 3 /\ ~ restarts_of r <= 1.
Proof.
  cbn zeta.
  assert (H : restarts_of
                (get_uno_context (Scenario.env Scenario.slow_start) Scenario.world0) = 2)
    by (vm_compute; reflexivity).
  split; [reflexivity |]. split; [exact H |].
  split; [vm_compute; reflexivity |]. rewrite H. lia.
Qed.

(** C1, amended: [get_uno_context] restarts the supervisor and resolves
    again after every refused connection, without a bound of its own: when
    the bridge refuses [k] resolutions in a row and answers the next one
    (within the recursion depth of the interpreter), the call restarts the
    supervisor exactly [k] times, resolves exactly [k + 1] times and ends
    with that last answer. *)
Theorem get_uno_context_retries_until_answered (E : Env) (w : World) (k : nat) :
  k < recursion_limit E ->
  refuses (office E) (attempts w) k ->
  let r := get_uno_context E w in
  restarts_of r = k /\ resolutions_of r = S k /\
  outcome r = resolve (office E) (attempts w + k).
Proof.
  intros Hk Href. exact (get_uno_context_rec_retries E k (recursion_limit E) w Hk Href).
Qed.

(** The theorem at a bridge that refuses two resolutions. *)
Lemma get_uno_context_retries_witness :
  let r := get_uno_context (Scenario.env Scenario.slow_start) Scenario.world0 in
  restarts_of r = 2 /\ resolutions_of r = 3 /\ outcome r = inr 0.
Proof.
  apply (get_uno_context_retries_until_answered
           (Scenario.env Scenario.slow_start) Scenario.world0 2).
  - cbn. lia.
  - split.
    + intros i Hi. exists Scenario.no_connect.
      destruct i as [|[|i]]; [split; reflexivity | split; reflexivity | lia].
    + exact I.
Defined.

(** ** Temporary files: C2 *)

(** C2: the html-to-docx handler does not do what its two siblings do.  A
    successful request is answered with the converted file, and both of its
    temporary files are still there when the handler returns: the handler
    has no [os.unlink] at all, where [convert_docx_to_html] and
    [batch_convert] unlink theirs. *)
Lemma html_to_docx_keeps_its_temporary_files :
  let r := handle (Scenario.env Scenario.healthy) HtmlToDocx Scenario.html_request
             Scenario.world0 in
  (exists resp, returned r resp /\ status resp = 200%Z) /\ ~ temp_files_deleted r.
Proof.
  cbn zeta. split.
  - eexists. split; vm_compute; reflexivity.
  - intros H. specialize (H (TmpPath 0 ".html")).
    assert (Hin : In (EvTempFile (TmpPath 0 ".html"))
                    (events (handle (Scenario.env Scenario.healthy) HtmlToDocx
                               Scenario.html_request Scenario.world0)))
      by (vm_compute; left; reflexivity).
    specialize (H Hin). vm_compute in H. discriminate H.
Qed.

(** X20: what the handlers do with their temporary files.  A docx-to-html
    or batch request that is not answered with status 500 leaves none of
    the temporary files it created; an html-to-docx request unlinks no file
    at all; the health check emits no event. *)
Theorem temporary_files_after_response (E : Env) (ep : endpoint) (req : Request)
    (w : World) (resp : response) :
  let r := handle E ep req w in
  returned r resp ->
  match ep with
  | DocxToHtml | Batch => status resp <> 500%Z -> temp_files_deleted r
  | HtmlToDocx => nothing_unlinked r
  | Health => events r = []
  end.
Proof.
  cbn zeta. unfold returned. intros Hret. destruct ep; cbn [handle] in *.
  - reflexivity.
  - destruct (convert_docx_to_html_spec E req w) as (resp' & Ho & _ & Hdel & _).
    rewrite Ho in Hret. injection Hret as <-. exact Hdel.
  - destruct (convert_html_to_docx_spec E req w) as (resp' & _ & Hun & _). exact Hun.
  - destruct (batch_convert_spec E req w) as (resp' & Ho & _ & _ & _ & Hdel).
    rewrite Ho in Hret. injection Hret as <-. exact Hdel.
Qed.

(** The theorem at a batch request of two files that convert. *)
Lemma temporary_files_after_response_witness :
  temp_files_deleted
    (handle (Scenario.env Scenario.healthy) Batch Scenario.batch_request Scenario.world0).
Proof.
  refine (temporary_files_after_response (Scenario.env Scenario.healthy) Batch
            Scenario.batch_request Scenario.world0 _ _ _).
  - vm_compute. reflexivity.
  - vm_compute. discriminate.
Defined.

(** ** The injected style block: C3 *)

Lemma injected_style_block_in_head_block :
  PyStr.occurs_in injected_style_block head_block.
Proof. apply PyStrFacts.contains_occurs. vm_compute. reflexivity. Qed.

(** C3, as stated, fails: against an office suite that exports its tags in
    upper case the conversion succeeds and the returned HTML is the export
    unchanged, without the style block. *)
Lemma upper_case_export_gets_no_style_block :
  let r := handle (Scenario.env Scenario.upper_case) DocxToHtml Scenario.docx_request
             Scenario.world0 in
  exists resp h,
    returned r resp /\ status resp = 200%Z /\
    response_field "success" resp = Some (JBool true) /\
    response_field "html" resp = Some (JStr h) /\
    PyStr.contains injected_style_block h = false.
Proof.
  cbn zeta. eexists. eexists.
  split; [vm_compute; reflexivity |].
  split; [reflexivity |]. split; [reflexivity |].
  split; [reflexivity |]. vm_compute. reflexivity.
Qed.

(** C3, amended: the ['html'] string of every successful docx-to-html
    response is the text the office suite exported with every literal
    [<head>] replaced by [head_block]; it contains the injected style block
    whenever that export contains the literal [<head>]. *)
Theorem converted_html_contains_style_block (E : Env) (req : Request) (w : World)
    (resp : response) :
  returned (handle E DocxToHtml req w) resp ->
  status resp = 200%Z ->
  exists s h,
    exported_text E w s /\
    response_field "html" resp = Some (JStr h) /\
    h = PyStr.replace "<head>" head_block s /\
    (PyStr.contains "<head>" s = true -> PyStr.contains injected_style_block h = true).
Proof.
  intros Hret Hst. cbn [handle] in Hret. unfold returned in Hret.
  destruct (convert_docx_to_html_spec E req w) as (resp' & Ho & _ & _ & Hok).
  rewrite Ho in Hret. injection Hret as <-.
  destruct (Hok Hst) as (h & t & s & -> & Hs & ->).
  exists s, (PyStr.replace "<head>" head_block s).
  split; [exact Hs |]. split; [reflexivity |]. split; [reflexivity |].
  intros Hhead. apply PyStrFacts.contains_occurs.
  apply PyStrFacts.occurs_in_trans with (b := head_block).
  - exact injected_style_block_in_head_block.
  - apply PyStrFacts.replace_occurs; [discriminate | exact Hhead].
Qed.

(** The theorem at a request served by an office suite whose export has a
    lower-case [<head>]. *)
Lemma converted_html_contains_style_block_witness :
  let resp :=
    jsonify (JObj [ ("success", JBool true);
                    ("html", JStr (PyStr.replace "<head>" head_block Scenario.exported_html));
                    ("hash", JStr "3251194f2e0dab1220d65751a697bac2c9ca18b1446317b26c31e2288e49ec25");
                    ("timestamp", JNum 1700000000) ]) in
  exists s h,
    exported_text (Scenario.env Scenario.healthy) Scenario.world0 s /\
    response_field "html" resp = Some (JStr h) /\
    h = PyStr.replace "<head>" head_block s /\
    (PyStr.contains "<head>" s = true -> PyStr.contains injected_style_block h = true).
Proof.
  apply (converted_html_contains_style_block (Scenario.env Scenario.healthy)
           Scenario.docx_request Scenario.world0).
  - vm_compute. reflexivity.
  - reflexivity.
Defined.

(** ** Failures and status codes: C4 *)




(** ** Missing input: C5 *)

(** C5: the guard of the html-to-docx handler misses the bodies that are
    no object.  The numbers and [true] have no ['html'] key, and the
    membership test of the guard itself raises on them; a string that
    contains the letters passes the guard and the subscript raises.  Each
    is answered 500 by the handler's [except] clause, not 400. *)
Lemma non_object_bodies_are_answered_500 :
  let answer req :=
    handle (Scenario.env Scenario.healthy) HtmlToDocx req Scenario.world0 in
  (forall req, In req [Faults.number_body; Faults.true_body; Faults.text_body] ->
     exists resp, returned (answer req) resp /\ is_error_response 500 resp /\
       exception_caught (answer req) = true /\
       forall c ok, ~ In (EvCall c ok) (events (answer req))) /\
  py_in "html" (JNum 5) = inl (Exn TypeError "argument is not iterable") /\
  py_in "html" (JBool true) = inl (Exn TypeError "argument is not iterable") /\
  py_getitem "html" (JStr "<html><body>cv</body></html>")
    = inl (Exn TypeError "string indices must be integers").
Proof.
  cbn zeta. split; [| repeat split].
  intros req [<- | [<- | [<- | []]]].
  all: eexists; split; [vm_compute; reflexivity |].
  all: split; [split; [reflexivity | eexists; reflexivity] |].
  all: split; [vm_compute; reflexivity |].
  all: intros c ok H; vm_compute in H; intuition discriminate.
Qed.

(** X19: a docx-to-html request without a ['file'] part or with an empty
    filename, an html-to-docx request whose JSON body is an object without
    an ['html'] key and a batch request without ['files'] are answered with
    a 400 and a JSON error; nothing is converted: the run makes no remote
    call, creates no file and leaves the world as it was. *)
Theorem missing_input_is_rejected (E : Env) (ep : endpoint) (req : Request) (w : World) :
  missing_input ep req ->
  let r := handle E ep req w in
  exists resp,
    returned r resp /\ is_error_response 400 resp /\ events r = [] /\ world r = w.
Proof.
  intros Hmiss. cbn zeta. unfold returned.
  destruct ep; cbn [handle missing_input] in *.
  - contradiction.
  - unfold convert_docx_to_html, try_except, bind, ret.
    destruct Hmiss as [Hf | (f & Hf & Hn)]; rewrite Hf; [| rewrite Hn]; cbn;
      eexists; (split; [reflexivity |]);
      (split; [split; [reflexivity | eexists; reflexivity] |]); split; reflexivity.
  - destruct Hmiss as (fields & Hj & Ha).
    unfold convert_html_to_docx, try_except, bind, ret, lift. rewrite Hj.
    destruct fields as [|kv fields]; [cbn | cbn [truthy negb]; unfold py_in; rewrite Ha; cbn];
      eexists; (split; [reflexivity |]);
      (split; [split; [reflexivity | eexists; reflexivity] |]); split; reflexivity.
  - destruct (batch_convert_spec E req w) as (resp & Ho & Hnone & _).
    destruct (Hnone Hmiss) as (Herr & Hev & Hw).
    exists resp. auto.
Qed.

(** The theorem at an html-to-docx request with a ['template'] and no
    ['html']. *)
Lemma missing_input_is_rejected_witness :
  exists resp,
    returned (handle (Scenario.env Scenario.healthy) HtmlToDocx Scenario.keyless_request
                Scenario.world0) resp /\
    is_error_response 400 resp /\
    events (handle (Scenario.env Scenario.healthy) HtmlToDocx Scenario.keyless_request
              Scenario.world0) = [] /\
    world (handle (Scenario.env Scenario.healthy) HtmlToDocx Scenario.keyless_request
             Scenario.world0) = Scenario.world0.
Proof.
  apply (missing_input_is_rejected (Scenario.env Scenario.healthy) HtmlToDocx
           Scenario.keyless_request Scenario.world0).
  exists [("template", JStr "modern")]. split; reflexivity.
Defined.

Example form_without_file_part :
  outcome (handle (Scenario.env Scenario.healthy) DocxToHtml Scenario.empty_request
             Scenario.world0) =
  inr (jsonify_status (error_body "No file provided") 400).
Proof. reflexivity. Qed.

Example form_with_empty_filename :
  outcome (handle (Scenario.env Scenario.healthy) DocxToHtml Scenario.unnamed_request
             Scenario.world0) =
  inr (jsonify_status (error_body "No file selected") 400).
Proof. reflexivity. Qed.

Example batch_without_files :
  outcome (handle (Scenario.env Scenario.healthy) Batch Scenario.empty_request
             Scenario.world0) =
  inr (jsonify_status (error_body "No files provided") 400).
Proof. reflexivity. Qed.

Example routes :
  route "GET" "/health" = Some Health /\
  route "POST" "/convert/docx-to-html" = Some DocxToHtml /\
  route "POST" "/convert/html-to-docx" = Some HtmlToDocx /\
  route "POST" "/convert/batch" = Some Batch /\
  route "GET" "/convert/batch" = None.
Proof. repeat split. Qed.

(** ** The batch response: C6 *)

(** C6: a batch request with [n > 0] files whose handler catches no
    exception is answered with a 200 whose body has ['processed'] equal to
    [n] and a ['results'] list with one entry per uploaded file, in the order
    of submission: the entry of a file carries its filename and either
    [success: True] with ['html'] and ['hash'], or [success: False] with
    ['error'].  Which of the two is decided by the conversion of that file:
    the success entry, with the text of the converted file, when
    [docx_to_html] returned [True], and the failure entry when it returned
    [False]. *)
Theorem batch_response_lists_every_file (E : Env) (req : Request) (w : World) :
  let uploads := files_getlist "files" (files req) in
  let r := handle E Batch req w in
  uploads <> [] ->
  exception_caught r = false ->
  exists resp results,
    returned r resp /\ status resp = 200%Z /\
    resp_body resp =
      JsonBody (JObj [ ("success", JBool true);
                       ("results", JArr results);
                       ("processed", JNum (Z.of_nat (List.length uploads))) ]) /\
    List.length results = List.length uploads /\
    Forall2 (batch_entry (hashlib_sha256_hexdigest E)) uploads results /\
    zip_with (entry_of (hashlib_sha256_hexdigest E)) uploads (batch_conversions E uploads w)
      = map Some results.
Proof.
  cbn zeta. cbn [handle]. intros Hne Hexc.
  destruct (batch_convert_spec E req w) as (resp & Ho & _ & _ & Hok & _).
  destruct (Hok Hne Hexc) as (Hst & results & Hbody & Hall).
  destruct (batch_convert_entries E req w Hne Hexc) as (results' & Hout & Hz).
  cbn zeta in Ho. rewrite Ho in Hout. injection Hout as ->.
  cbn in Hbody. injection Hbody as <-.
  eexists _, results'. split; [exact Ho |]. split; [exact Hst |].
  split.
  { cbn. rewrite <- (Forall2_length _ _ _ Hall). reflexivity. }
  split; [symmetry; exact (Forall2_length _ _ _ Hall) |].
  split; [exact Hall | exact Hz].
Qed.

(** The theorem at a batch request of two files that convert. *)
Lemma batch_response_lists_every_file_witness :
  exists resp results,
    returned (handle (Scenario.env Scenario.healthy) Batch Scenario.batch_request
                Scenario.world0) resp /\
    status resp = 200%Z /\
    resp_body resp =
      JsonBody (JObj [ ("success", JBool true);
                       ("results", JArr results);
                       ("processed", JNum 2) ]) /\
    List.length results = 2 /\
    Forall2 (batch_entry SHA256.hexdigest) [Scenario.cv; Scenario.letter] results /\
    zip_with (entry_of SHA256.hexdigest) [Scenario.cv; Scenario.letter]
      (batch_conversions (Scenario.env Scenario.healthy) [Scenario.cv; Scenario.letter]
         Scenario.world0)
      = map Some results.
Proof.
  apply (batch_response_lists_every_file (Scenario.env Scenario.healthy)
           Scenario.batch_request Scenario.world0).
  - discriminate.
  - vm_compute. reflexivity.
Defined.

(** In a batch whose documents cannot be loaded every conversion returns
    [False] and every entry is the failure entry of its file. *)
Example failed_conversions_are_reported_as_failures :
  let E := Scenario.env Scenario.unreadable in
  map fst (batch_conversions E [Scenario.cv; Scenario.letter] Scenario.world0)
    = [inr false; inr false] /\
  outcome (handle E Batch Scenario.batch_request Scenario.world0)
    = inr (jsonify (JObj [ ("success", JBool true);
                           ("results", JArr [failure_entry Scenario.cv;
                                             failure_entry Scenario.letter]);
                           ("processed", JNum 2) ])).
Proof. cbn zeta. split; vm_compute; reflexivity. Qed.

(** ** The content hash: C7 *)

Lemma hex_digit_lowercase (d : Z) : (0 <= d < 16)%Z -> In (SHA256.hex_digit d) hex_alphabet.
Proof.
  intros Hd.
  assert (H : (d = 0 \/ d = 1 \/ d = 2 \/ d = 3 \/ d = 4 \/ d = 5 \/ d = 6 \/ d = 7 \/
               d = 8 \/ d = 9 \/ d = 10 \/ d = 11 \/ d = 12 \/ d = 13 \/ d = 14 \/
               d = 15)%Z) by lia.
  repeat (destruct H as [-> | H]; [vm_compute; tauto |]).
  subst d. vm_compute. tauto.
Qed.

Lemma hex_lowercase (bs : list Z) :
  Forall (fun b => (0 <= b < 256)%Z) bs ->
  String.length (SHA256.hex bs) = 2 * List.length bs /\
  Forall (fun c => In c hex_alphabet) (list_ascii_of_string (SHA256.hex bs)).
Proof.
  induction 1 as [|b bs Hb _ [IHl IHc]]; [split; [reflexivity | constructor] |].
  cbn [SHA256.hex String.length List.length list_ascii_of_string]. split; [lia |].
  constructor; [| constructor; [| exact IHc]]; apply hex_digit_lowercase.
  - split; [apply Z.div_pos; lia | apply Z.div_lt_upper_bound; lia].
  - apply Z.mod_pos_bound. lia.
Qed.

Lemma be_bytes_range (n : nat) (x : Z) :
  Forall (fun b => (0 <= b < 256)%Z) (SHA256.be_bytes n x).
Proof.
  unfold SHA256.be_bytes. apply Forall_forall. intros b Hb.
  apply list_elem_of_In, in_map_iff in Hb. destruct Hb as (i & <- & _).
  apply Z.mod_pos_bound. lia.
Qed.

(** The hexadecimal digest is 64 lower-case hexadecimal digits. *)
Lemma hexdigest_lowercase (msg : list byte) :
  String.length (SHA256.hexdigest msg) = 64 /\
  Forall (fun c => In c hex_alphabet) (list_ascii_of_string (SHA256.hexdigest msg)).
Proof.
  unfold SHA256.hexdigest, SHA256.digest.
  set (r := fold_left SHA256.compress _ _).
  destruct (hex_lowercase
              (List.concat (List.map (SHA256.be_bytes 4)
                 [SHA256.ra r; SHA256.rb r; SHA256.rc r; SHA256.rd r;
                  SHA256.re r; SHA256.rf r; SHA256.rg r; SHA256.rh r]))) as [Hl Hc].
  - cbn [List.map List.concat]. repeat (apply Forall_app; split; [apply be_bytes_range |]).
    constructor.
  - split; [rewrite Hl; reflexivity | exact Hc].
Qed.

Lemma batch_entry_of_result (h : list byte -> string) (uploads : list FileStorage)
    (results : list json) (entry : json) :
  Forall2 (batch_entry h) uploads results -> In entry results ->
  exists f, In f uploads /\ batch_entry h f entry.
Proof.
  induction 1 as [|f e uploads results He _ IH]; intros HIn; [destruct HIn |].
  destruct HIn as [<- | HIn].
  - exists f. split; [now left | exact He].
  - destruct (IH HIn) as (f' & Hf' & He'). exists f'. split; [now right | exact He'].
Qed.

(** C7: in every successful docx-to-html response, and in every entry of a
    batch response that reports success, ['hash'] is the hexadecimal SHA-256
    digest of the UTF-8 encoding of the ['html'] string beside it, a string
    of 64 lower-case hexadecimal digits.  The hash is used for nothing else:
    with any other digest function in the place of [hashlib.sha256], every
    endpoint leaves the same world, emits the same events and returns the
    same response up to its ['hash'] members. *)
Theorem hash_is_digest_of_html (o : Office) (depth : nat) :
  let E := Build_Env o depth SHA256.hexdigest in
  (forall req w resp,
     returned (handle E DocxToHtml req w) resp -> status resp = 200%Z ->
     exists h,
       response_field "html" resp = Some (JStr h) /\
       response_field "hash" resp = Some (JStr (SHA256.hexdigest (PyStr.encode h)))) /\
  (forall req w resp,
     returned (handle E Batch req w) resp -> status resp = 200%Z ->
     exists results,
       response_field "results" resp = Some (JArr results) /\
       forall entry, In entry results -> field "success" entry = Some (JBool true) ->
         exists h,
           field "html" entry = Some (JStr h) /\
           field "hash" entry = Some (JStr (SHA256.hexdigest (PyStr.encode h)))) /\
  (forall msg,
     String.length (SHA256.hexdigest msg) = 64 /\
     Forall (fun c => In c hex_alphabet) (list_ascii_of_string (SHA256.hexdigest msg))) /\
  (forall digest ep req w,
     let r := handle E ep req w in
     let r' := handle (Build_Env o depth digest) ep req w in
     world r = world r' /\ events r = events r' /\
     outcome_without_hash (outcome r) = outcome_without_hash (outcome r')).
Proof.
  cbn zeta. split; [| split; [| split; [exact hexdigest_lowercase |]]].
  - intros req w resp Hret Hst. cbn [handle] in Hret. unfold returned in Hret.
    destruct (convert_docx_to_html_spec (Build_Env o depth SHA256.hexdigest) req w)
      as (resp' & Ho & _ & _ & Hok).
    rewrite Ho in Hret. injection Hret as <-.
    destruct (Hok Hst) as (h & t & s & -> & _ & _).
    exists h. split; reflexivity.
  - intros req w resp Hret Hst. cbn [handle] in Hret. unfold returned in Hret.
    destruct (batch_convert_spec (Build_Env o depth SHA256.hexdigest) req w)
      as (resp' & Ho & Hnone & Hexc & Hok & _).
    rewrite Ho in Hret. injection Hret as <-.
    destruct (files_getlist "files" (files req)) as [|f rest] eqn:Hup.
    { destruct (Hnone eq_refl) as ((H400 & _) & _). congruence. }
    destruct (exception_caught (batch_convert (Build_Env o depth SHA256.hexdigest) req w))
      eqn:Hcaught.
    { destruct (Hexc eq_refl) as (H500 & _). congruence. }
    destruct (Hok ltac:(discriminate) eq_refl) as (_ & results & Hbody & Hall).
    exists results. split.
    { unfold response_field, json_of. rewrite Hbody. reflexivity. }
    intros entry HIn Hsucc.
    destruct (batch_entry_of_result _ _ _ _ Hall HIn) as (f' & _ & [(h & ->) | ->]).
    + exists h. split; reflexivity.
    + discriminate Hsucc.
  - intros digest ep req w. destruct ep; cbn [handle].
    + auto.
    + apply convert_docx_to_html_digest.
    + rewrite (convert_html_to_docx_digest o depth SHA256.hexdigest digest). auto.
    + apply batch_convert_digest.
Qed.

(** The theorem at a docx-to-html request that converts: the digest in the
    response is the one [hashlib] computes for the returned HTML. *)
Lemma hash_is_digest_of_html_witness :
  let resp :=
    jsonify (JObj [ ("success", JBool true);
                    ("html", JStr (PyStr.replace "<head>" head_block Scenario.exported_html));
                    ("hash", JStr "3251194f2e0dab1220d65751a697bac2c9ca18b1446317b26c31e2288e49ec25");
                    ("timestamp", JNum 1700000000) ]) in
  exists h,
    response_field "html" resp = Some (JStr h) /\
    response_field "hash" resp = Some (JStr (SHA256.hexdigest (PyStr.encode h))).
Proof.
  apply (proj1 (hash_is_digest_of_html Scenario.healthy 1000)
           Scenario.docx_request Scenario.world0).
  - vm_compute. reflexivity.
  - reflexivity.
Defined.

(** ** The health check: C8 *)

(** C8: the health check answers 200 with ['status'] equal to ['healthy']
    whatever the office suite would answer: it makes no remote call, emits
    no event and leaves the world as it was. *)
Theorem health_check_is_always_healthy (E : Env) (req : Request) (w : World) :
  let r := handle E Health req w in
  exists resp,
    returned r resp /\ status resp = 200%Z /\
    response_field "status" resp = Some (JStr "healthy") /\
    events r = [] /\ world r = w.
Proof.
  cbn zeta. eexists. split; [reflexivity |]. repeat split.
Qed.

(** ** The two definitions of the post-processor: C9 *)

(** What the first definition would write, for comparison. *)
Example first_definition_would_differ :
  let w := set_fs {[ AbsPath "/tmp/a.html" := Utf8Text "<head></head>" ]} Scenario.world0 in
  fs (world (enhance_html_output_127 (AbsPath "/tmp/a.html") w)) !! AbsPath "/tmp/a.html" <>
  fs (world (enhance_html_output (AbsPath "/tmp/a.html") w)) !! AbsPath "/tmp/a.html".
Proof. vm_compute. discriminate. Qed.

(** C9: the class namespace binds [enhance_html_output] to its second
    definition, so the method that [docx_to_html] calls is that one: on a
    file holding the text [s] it writes back [s] with every [<head>]
    replaced by [head_block] (the meta tags and the 'Segoe UI' style block)
    and does nothing else; the replacement of [</head>] of the first
    definition is not part of it. *)
Theorem enhance_html_output_is_second_definition (p : path) (w : World) (s : string) :
  fs w !! p = Some (Utf8Text s) ->
  class_namespace !! "enhance_html_output" = Some Def_enhance_html_output_226 /\
  enhance_html_output p = enhance_html_output_226 p /\
  enhance_html_output p w =
    mkRes (inr PyNone)
      (set_fs (<[p := Utf8Text (PyStr.replace "<head>" head_block s)]> (fs w)) w) [].
Proof.
  intros Hs. split; [exact class_binds_second_definition |].
  split; [apply enhance_html_output_bound |].
  rewrite enhance_html_output_bound, enhance_html_output_226_run, Hs. reflexivity.
Qed.

(** The theorem at a file that holds an empty head element. *)
Lemma enhance_html_output_is_second_definition_witness :
  let p := AbsPath "/tmp/a.html" in
  let w := set_fs {[ p := Utf8Text "<head></head>" ]} Scenario.world0 in
  class_namespace !! "enhance_html_output" = Some Def_enhance_html_output_226 /\
  enhance_html_output p = enhance_html_output_226 p /\
  enhance_html_output p w =
    mkRes (inr PyNone)
      (set_fs (<[p := Utf8Text (PyStr.replace "<head>" head_block "<head></head>")]> (fs w)) w)
      [].
Proof.
  apply (enhance_html_output_is_second_definition (AbsPath "/tmp/a.html")
           (set_fs {[ AbsPath "/tmp/a.html" := Utf8Text "<head></head>" ]} Scenario.world0)
           "<head></head>").
  vm_compute. reflexivity.
Defined.

(** ** What the conversions return: C10 *)

(** C10, as stated, fails: when closing the document raises after the load
    and the export have returned, [docx_to_html] returns [False]. *)
Lemma docx_to_html_false_after_load_and_export :
  let docx := TmpPath 0 ".docx" in
  let html := TmpPath 1 ".html" in
  let r := docx_to_html (Scenario.env Scenario.close_vetoed) docx html
             (staged Scenario.cv Scenario.world0) in
  outcome r = inr false /\
  completed (LoadComponentFromURL docx) r /\ completed (StoreToURL html) r /\
  ~ (outcome r = inr true <->
     completed (LoadComponentFromURL docx) r /\ completed (StoreToURL html) r).
Proof.
  cbn zeta.
  assert (Ho : outcome (docx_to_html (Scenario.env Scenario.close_vetoed) (TmpPath 0 ".docx")
                 (TmpPath 1 ".html") (staged Scenario.cv Scenario.world0)) = inr false)
    by (vm_compute; reflexivity).
  assert (Hl : completed (LoadComponentFromURL (TmpPath 0 ".docx"))
                 (docx_to_html (Scenario.env Scenario.close_vetoed) (TmpPath 0 ".docx")
                    (TmpPath 1 ".html") (staged Scenario.cv Scenario.world0)))
    by (unfold completed; vm_compute; tauto).
  assert (Hs : completed (StoreToURL (TmpPath 1 ".html"))
                 (docx_to_html (Scenario.env Scenario.close_vetoed) (TmpPath 0 ".docx")
                    (TmpPath 1 ".html") (staged Scenario.cv Scenario.world0)))
    by (unfold completed; vm_compute; tauto).
  repeat split; try assumption.
  intros [_ H]. specialize (H (conj Hl Hs)). rewrite Ho in H. discriminate H.
Qed.

(** A post-processing failure leaves the result [True]. *)
Example enhancement_failure_keeps_true :
  let r := docx_to_html (Scenario.env Scenario.binary_export) (TmpPath 0 ".docx")
             (TmpPath 1 ".html") (staged Scenario.cv Scenario.world0) in
  outcome r = inr true /\
  In (EvLog ERROR "HTML enhancement failed: {}" ["'utf-8' codec can't decode"]) (events r).
Proof. cbn zeta. split; [vm_compute; reflexivity | vm_compute; tauto]. Qed.

(** C10, amended: [docx_to_html] and [html_to_docx] never raise.  Each
    returns [True] exactly when every remote call of its body returns:
    resolving the bridge, creating the desktop, loading the document,
    (for [docx_to_html]) reaching the document properties, exporting, and
    closing the document; it returns [False] when any of them raises.
    [enhance_html_output] never raises, so what it does has no part in the
    result. *)
Theorem conversions_return_whether_calls_completed (E : Env) (p q : path)
    (t : option string) (w : World) :
  (exists b,
     outcome (docx_to_html E p q w) = inr b /\
     (b = true <-> all_completed (docx_to_html_calls p q) (docx_to_html E p q w))) /\
  (exists b,
     outcome (html_to_docx E p q t w) = inr b /\
     (b = true <-> all_completed (html_to_docx_calls p q) (html_to_docx E p q t w))) /\
  (exists v, outcome (enhance_html_output q w) = inr v).
Proof.
  split; [| split].
  - destruct (docx_to_html_spec E p q w) as (b & Hb & _ & _ & _ & _ & _ & Hall & _).
    exists b. split; [exact Hb | exact Hall].
  - destruct (html_to_docx_spec E p q t w) as (b & Hb & _ & _ & _ & _ & _ & Hall).
    exists b. split; [exact Hb | exact Hall].
  - rewrite enhance_html_output_bound, enhance_html_output_226_run.
    destruct (fs w !! q) as [[s | raw] |]; eexists; reflexivity.
Qed.

(** * Further properties of the code *)

(** ** Lengths of Python strings *)

Module PyStrLength.
Import PyStr PyStrFacts.

Lemma length_append (a b : string) :
  String.length (a +:+ b) = String.length a + String.length b.
Proof.
  induction a as [|c a IH]; [reflexivity |].
  rewrite append_cons. cbn [String.length]. now rewrite IH.
Qed.

Lemma contains_cons (needle : string) (c : ascii) (s : string) :
  contains needle (String c s) =
  if startswith needle (String c s) then true else contains needle s.
Proof. reflexivity. Qed.

Lemma contains_nil (needle : string) :
  contains needle "" = match needle with "" => true | _ => false end.
Proof. destruct needle; reflexivity. Qed.

(** A replacement by a string at least as long never shortens. *)
Lemma replace_go_length_ge (old new : string) :
  old <> "" -> String.length old <= String.length new ->
  forall s k,
    String.length s <= String.length (replace_go old new k s) + Nat.min k (String.length s).
Proof.
  intros Hne Hlen. induction s as [|c s IH]; intros k; [cbn; lia |].
  cbn [replace_go]. destruct k as [|k].
  - destruct (startswith old (String c s)) eqn:Hs.
    + rewrite length_append. specialize (IH (String.length old - 1)).
      assert (0 < String.length old) by (destruct old; [congruence | cbn; lia]).
      cbn [String.length]. lia.
    + specialize (IH 0). cbn [String.length]. lia.
  - specialize (IH k). cbn [String.length]. lia.
Qed.

(** Replacing an occurrence by a longer string lengthens by the difference
    at least. *)
Lemma replace_go_length_grows (old new s : string) :
  old <> "" -> String.length old <= String.length new ->
  contains old s = true ->
  String.length s + (String.length new - String.length old)
    <= String.length (replace_go old new 0 s).
Proof.
  intros Hne Hlen. induction s as [|c s IH]; intros H.
  - rewrite contains_nil in H. destruct old; [congruence | discriminate].
  - rewrite contains_cons in H. cbn [replace_go].
    destruct (startswith old (String c s)) eqn:Hs.
    + rewrite length_append.
      pose proof (replace_go_length_ge old new Hne Hlen s (String.length old - 1)).
      assert (0 < String.length old) by (destruct old; [congruence | cbn; lia]).
      cbn [String.length]. lia.
    + specialize (IH H). cbn [String.length]. lia.
Qed.

Lemma replace_length_grows (old new s : string) :
  old <> "" -> String.length old <= String.length new ->
  contains old s = true ->
  String.length s + (String.length new - String.length old)
    <= String.length (replace old new s).
Proof.
  intros Hne Hlen H. destruct old as [|a old]; [congruence |].
  now apply replace_go_length_grows.
Qed.

End PyStrLength.

Lemma head_block_starts_with_head : PyStr.startswith "<head>" head_block = true.
Proof. vm_compute. reflexivity. Qed.

Lemma head_block_length : String.length head_block = 838.
Proof. vm_compute. reflexivity. Qed.

Lemma set_fs_same (w : World) : set_fs (fs w) w = w.
Proof. destruct w. reflexivity. Qed.

Lemma file_events_count (evs : list event) :
  existsb is_file_event evs = false ->
  count is_temp_file evs = 0 /\ count is_unlink evs = 0.
Proof.
  induction evs as [| ev evs IH]; [now split |].
  cbn [existsb]. intros H. apply Bool.orb_false_iff in H. destruct H as [H1 H2].
  destruct (IH H2) as [Ha Hb].
  destruct ev; cbn in H1; try discriminate; cbn; now split.
Qed.

Lemma bridge_no_document_call (evs : list event) :
  Forall bridge_event evs -> count is_document_call evs = 0.
Proof.
  induction 1 as [| ev evs Hev _ IH]; [reflexivity |].
  destruct ev as [| | | | | c b | |]; cbn in *; try assumption; try contradiction.
  destruct c; cbn in *; try contradiction. assumption.
Qed.

(** ** The supervisor and the bridge: what a refused connection costs *)

Section SupervisorFacts.
Variable E : Env.

Lemma start_libreoffice_service_elapsed (w : World) :
  (0 <= elapsed w (start_libreoffice_service E w) <= 7)%Z.
Proof.
  unfold start_libreoffice_service, bind, try_except, supervisor_start, subprocess,
    sleep, log, emit, elapsed.
  cbn.
  destruct (taskkill (office E) (restarts w)) as [e |]; cbn;
    [| destruct (popen (office E) (restarts w)) as [e |]; cbn]; lia.
Qed.

(** X1: a supervisor start never raises.  The office suite is spawned only
    after [taskkill] returned; the start sleeps 7 seconds when both
    subprocess calls return, less when one raises, and logs that the
    service started exactly in the first case. *)
Theorem supervisor_start_never_raises (w : World) :
  let r := start_libreoffice_service E w in
  outcome r = inr tt /\
  (forall ok, In (EvSpawn ok) (events r) -> taskkill (office E) (restarts w) = None) /\
  (0 <= elapsed w r <= 7)%Z /\
  (elapsed w r = 7%Z <->
   taskkill (office E) (restarts w) = None /\ popen (office E) (restarts w) = None) /\
  (In (EvLog INFO "LibreOffice service started" []) (events r) <-> elapsed w r = 7%Z).
Proof.
  unfold start_libreoffice_service, bind, try_except, supervisor_start, subprocess,
    sleep, log, emit, elapsed.
  cbn.
  destruct (taskkill (office E) (restarts w)) as [e |]; cbn;
    [| destruct (popen (office E) (restarts w)) as [e |]; cbn].
  all: split; [reflexivity |].
  all: split; [intros ok H; repeat (destruct H as [H | H]; try discriminate H);
               try reflexivity; try contradiction |].
  all: split; [lia |].
  all: split; [split; [intros H; try lia; auto | intros [H1 H2]; try discriminate; lia] |].
  all: split; [intros H; repeat (destruct H as [H | H]; try discriminate H);
               try contradiction; lia | intros H; try lia; cbn; tauto].
Qed.

(** One refused resolution, unfolded. *)
Lemma get_uno_context_rec_unfold (d : nat) (w : World) (e : exn) :
  resolve (office E) (attempts w) = inl e ->
  exn_cls e = NoConnectException ->
  let r0 := start_libreoffice_service E (after_resolution w) in
  let r := get_uno_context_rec E d (later 5 (world r0)) in
  get_uno_context_rec E (S d) w =
    mkRes (outcome r) (world r)
      ([EvCall Resolve false; EvLog ERROR "Failed to connect to LibreOffice service" []]
       ++ events r0 ++ [EvSleep 5] ++ events r).
Proof.
  intros Hres Hcls. cbn zeta.
  destruct (start_libreoffice_service_spec E (after_resolution w)) as (Ho & _).
  cbn [get_uno_context_rec]. unfold try_except_class, resolve_bridge. rewrite Hres.
  destruct (decide (exn_cls e = NoConnectException)) as [_ | Hn]; [| contradiction].
  unfold bind, log, emit, sleep. fold (after_resolution w).
  destruct (start_libreoffice_service E (after_resolution w)) as [o1 w1 ev1].
  cbn in Ho. subst o1. cbn [world events].
  fold (later 5 w1).
  destruct (get_uno_context_rec E d (later 5 w1)) as [o2 w2 ev2]. cbn.
  reflexivity.
Qed.

Lemma get_uno_context_rec_elapsed (k d : nat) (w : World) :
  k < d ->
  refuses (office E) (attempts w) k ->
  let r := get_uno_context_rec E d w in
  (5 * Z.of_nat k <= elapsed w r <= 12 * Z.of_nat k)%Z.
Proof.
  revert d w. induction k as [|k IH]; intros d w Hd [Hfail Hnext].
  - destruct d as [|d]; [lia |].
    rewrite Nat.add_0_r in *.
    cbn zeta. rewrite get_uno_context_rec_answered by exact Hnext.
    unfold elapsed. cbn. lia.
  - destruct d as [|d]; [lia |].
    destruct (Hfail 0) as (e & He & Hc); [lia |].
    rewrite Nat.add_0_r in He.
    cbn zeta. rewrite (get_uno_context_rec_unfold d w e He Hc). cbn zeta.
    pose proof (start_libreoffice_service_elapsed (after_resolution w)) as Hel.
    destruct (start_libreoffice_service_spec E (after_resolution w))
      as (_ & _ & _ & _ & Hatt & _).
    destruct (start_libreoffice_service E (after_resolution w)) as [o1 w1 ev1].
    unfold elapsed in Hel. cbn in Hel, Hatt.
    specialize (IH d (later 5 w1)).
    destruct IH as [IH1 IH2]; [lia | |].
    + cbn. rewrite Hatt. split.
      * intros i Hi. destruct (Hfail (S i)) as (e' & He' & Hc'); [lia |].
        exists e'. split; [| assumption]. rewrite <- He'. f_equal. lia.
      * replace (S (attempts w) + k) with (attempts w + S k) by lia. exact Hnext.
    + unfold elapsed in *. cbn in *. lia.
Qed.

Lemma get_uno_context_rec_exhausted (d : nat) (w : World) :
  always_refuses (office E) ->
  let r := get_uno_context_rec E d w in
  (exists msg, outcome r = inl (Exn RecursionError msg)) /\
  count is_supervisor_start (events r) = d /\
  count is_resolve (events r) = d /\
  (5 * Z.of_nat d <= elapsed w r)%Z.
Proof.
  intros Hall. revert w. induction d as [|d IH]; intros w.
  - cbn. split; [eexists; reflexivity |]. unfold elapsed. cbn. repeat split. lia.
  - destruct (Hall (attempts w)) as (e & He & Hc).
    cbn zeta. rewrite (get_uno_context_rec_unfold d w e He Hc). cbn zeta.
    pose proof (start_libreoffice_service_elapsed (after_resolution w)) as Hel.
    destruct (start_libreoffice_service_spec E (after_resolution w))
      as (_ & _ & _ & _ & _ & _ & _ & Hcs & Hcr).
    destruct (start_libreoffice_service E (after_resolution w)) as [o1 w1 ev1].
    unfold elapsed in Hel. cbn in Hel, Hcs, Hcr.
    destruct (IH (later 5 w1)) as ((msg & Ho) & H1 & H2 & H3).
    cbn. split; [exists msg; exact Ho |].
    rewrite !count_app. cbn. rewrite Hcs, Hcr, H1, H2.
    split; [lia |]. split; [lia |].
    unfold elapsed in *. cbn in *. lia.
Qed.

(** X2: a bridge that answers after [k] refused connections costs
    [get_uno_context] between [5 k] and [12 k] seconds of sleep. *)
Theorem get_uno_context_latency (w : World) (k : nat) :
  k < recursion_limit E ->
  refuses (office E) (attempts w) k ->
  let r := get_uno_context E w in
  (5 * Z.of_nat k <= elapsed w r <= 12 * Z.of_nat k)%Z.
Proof.
  intros Hk Href. exact (get_uno_context_rec_elapsed k (recursion_limit E) w Hk Href).
Qed.

(** X3: when the bridge refuses every connection, [get_uno_context] ends
    with [RecursionError], after as many supervisor starts and resolutions
    as the interpreter allows nested calls and 5 seconds of sleep for each
    at least. *)
Theorem get_uno_context_exhausts_recursion (w : World) :
  always_refuses (office E) ->
  let r := get_uno_context E w in
  (exists msg, outcome r = inl (Exn RecursionError msg)) /\
  restarts_of r = recursion_limit E /\
  resolutions_of r = recursion_limit E /\
  (5 * Z.of_nat (recursion_limit E) <= elapsed w r)%Z.
Proof.
  intros Hall. exact (get_uno_context_rec_exhausted (recursion_limit E) w Hall).
Qed.

(** X4: when the bridge refuses every connection, [docx_to_html] returns
    [False] after that many supervisor starts, without a desktop or
    document call and without touching a file. *)
Theorem docx_to_html_unreachable_bridge (p q : path) (w : World) :
  always_refuses (office E) ->
  let r := docx_to_html E p q w in
  returned r false /\
  restarts_of r = recursion_limit E /\
  resolutions_of r = recursion_limit E /\
  count is_document_call (events r) = 0 /\
  fs (world r) = fs w /\
  (5 * Z.of_nat (recursion_limit E) <= elapsed w r)%Z.
Proof.
  intros Hall. cbn zeta. unfold returned, restarts_of, resolutions_of.
  destruct (get_uno_context_rec_exhausted (recursion_limit E) w Hall)
    as ((msg & Ho) & Hs & Hr & Hel).
  destruct (get_uno_context_rec_spec E (recursion_limit E) w) as (Hfs & _ & _ & Hev & _).
  unfold docx_to_html, try_except, bind, get_uno_context.
  destruct (get_uno_context_rec E (recursion_limit E) w) as [o w1 ev1].
  unfold elapsed in *. cbn [outcome world events] in *. subst o. cbn.
  rewrite !count_app, Hs, Hr, (bridge_no_document_call _ Hev). cbn.
  repeat split; try lia. exact Hfs.
Qed.
End SupervisorFacts.

(** The theorem at a bridge that refuses two connections. *)
Lemma get_uno_context_latency_witness :
  let r := get_uno_context (Scenario.env Scenario.slow_start) Scenario.world0 in
  (5 * Z.of_nat 2 <= elapsed Scenario.world0 r <= 12 * Z.of_nat 2)%Z.
Proof.
  apply (get_uno_context_latency (Scenario.env Scenario.slow_start) Scenario.world0 2).
  - cbn. lia.
  - split.
    + intros i Hi. exists Scenario.no_connect.
      destruct i as [|[|i]]; [split; reflexivity | split; reflexivity | lia].
    + exact I.
Defined.

(** The theorem at a bridge that never answers, three calls deep. *)
Lemma get_uno_context_exhausts_recursion_witness :
  let r := get_uno_context (Faults.shallow Faults.unreachable) Scenario.world0 in
  (exists msg, outcome r = inl (Exn RecursionError msg)) /\
  restarts_of r = 3 /\ resolutions_of r = 3 /\
  (5 * Z.of_nat 3 <= elapsed Scenario.world0 r)%Z.
Proof.
  apply (get_uno_context_exhausts_recursion (Faults.shallow Faults.unreachable)
           Scenario.world0).
  intros n. exists Scenario.no_connect. split; reflexivity.
Defined.

(** The theorem at the same bridge. *)
Lemma docx_to_html_unreachable_bridge_witness :
  let r := docx_to_html (Faults.shallow Faults.unreachable)
             (TmpPath 0 ".docx") (TmpPath 1 ".html") Scenario.world0 in
  returned r false /\ restarts_of r = 3 /\ resolutions_of r = 3 /\
  count is_document_call (events r) = 0 /\
  fs (world r) = fs Scenario.world0 /\
  (5 * Z.of_nat 3 <= elapsed Scenario.world0 r)%Z.
Proof.
  apply (docx_to_html_unreachable_bridge (Faults.shallow Faults.unreachable)
           (TmpPath 0 ".docx") (TmpPath 1 ".html") Scenario.world0).
  intros n. exists Scenario.no_connect. split; reflexivity.
Defined.

(** ** The conversions: a failed export, the template *)

Ltac split_membership :=
  repeat match goal with
         | H : _ \/ _ |- _ => destruct H
         | H : False |- _ => destruct H
         end.

Ltac no_close_after_failure Hev :=
  let HIn := fresh "HIn" in
  let Hclose := fresh "Hclose" in
  intros HIn; cbn in HIn; rewrite ?in_app_iff in HIn; cbn in HIn;
  split_membership; subst; try discriminate;
  try match goal with
      | H : In (EvCall _ false) _ |- _ =>
          apply (bridge_event_call _ _ _ Hev) in H; discriminate H
      end;
  (split; [reflexivity | intros ? Hclose]);
  cbn in Hclose; rewrite ?in_app_iff in Hclose; cbn in Hclose;
  split_membership; try discriminate;
  match goal with
  | H : In (EvCall CloseDocument _) _ |- _ =>
      apply (bridge_event_call _ _ _ Hev) in H; discriminate H
  end.

Section ConversionFailures.
Variable E : Env.

Lemma html_to_docx_template_irrelevant (p q : path) (t : option string) (w : World) :
  html_to_docx E p q t w = html_to_docx E p q None w.
Proof.
  unfold html_to_docx, try_except, bind.
  destruct (get_uno_context E w) as [[e | c] w1 ev1]; [reflexivity |].
  destruct (remote CreateDesktop _ w1) as [[e | u] w2 ev2]; [reflexivity |].
  destruct (remote (LoadComponentFromURL p) _ w2) as [[e | doc] w3 ev3]; [reflexivity |].
  destruct t as [t |]; [| reflexivity].
  unfold path_exists, apply_template_styles, try_except, ret.
  destruct (String.eqb t ""); cbn; [reflexivity |].
  destruct (fs w3 !! AbsPath t); reflexivity.
Qed.

(** X5: when reading the document properties or the export does not
    return, [docx_to_html] returns [False] and never closes the document. *)
Theorem docx_to_html_leaves_document_open (p q : path) (w : World) (c : office_call) :
  let r := docx_to_html E p q w in
  c = DocumentProperties \/ c = StoreToURL q ->
  In (EvCall c false) (events r) ->
  returned r false /\
  forall ok, ~ In (EvCall CloseDocument ok) (events r).
Proof.
  cbn zeta. unfold returned. intros Hc.
  conversion_cases E w.
  all: no_close_after_failure Hev.
Qed.

(** X6: when the export does not return, [html_to_docx] returns [False]
    and never closes the document. *)
Theorem html_to_docx_leaves_document_open (p q : path) (t : option string) (w : World) :
  let r := html_to_docx E p q t w in
  In (EvCall (StoreToURL q) false) (events r) ->
  returned r false /\
  forall ok, ~ In (EvCall CloseDocument ok) (events r).
Proof.
  cbn zeta. unfold returned. rewrite (html_to_docx_template_irrelevant p q t w).
  conversion_cases E w.
  all: no_close_after_failure Hev.
Qed.

(** X7: the run of [html_to_docx] does not depend on the template path:
    [apply_template_styles] does nothing. *)
Theorem html_to_docx_ignores_template (p q : path) (t1 t2 : option string) (w : World) :
  html_to_docx E p q t1 w = html_to_docx E p q t2 w.
Proof.
  rewrite (html_to_docx_template_irrelevant p q t1 w).
  now rewrite (html_to_docx_template_irrelevant p q t2 w).
Qed.
End ConversionFailures.

(** The theorem at an office suite whose export raises. *)
Lemma docx_to_html_leaves_document_open_witness :
  let r := docx_to_html (Scenario.env Faults.export_fails)
             (TmpPath 0 ".docx") (TmpPath 1 ".html") Scenario.world0 in
  returned r false /\ forall ok, ~ In (EvCall CloseDocument ok) (events r).
Proof.
  apply (docx_to_html_leaves_document_open (Scenario.env Faults.export_fails)
           (TmpPath 0 ".docx") (TmpPath 1 ".html") Scenario.world0
           (StoreToURL (TmpPath 1 ".html"))).
  - right. reflexivity.
  - vm_compute. repeat (first [left; reflexivity | right]).
Defined.

(** The theorem at the same office suite. *)
Lemma html_to_docx_leaves_document_open_witness :
  let r := html_to_docx (Scenario.env Faults.export_fails)
             (TmpPath 0 ".html") (TmpPath 1 ".docx") None Scenario.world0 in
  returned r false /\ forall ok, ~ In (EvCall CloseDocument ok) (events r).
Proof.
  apply (html_to_docx_leaves_document_open (Scenario.env Faults.export_fails)
           (TmpPath 0 ".html") (TmpPath 1 ".docx") None Scenario.world0).
  vm_compute. repeat (first [left; reflexivity | right]).
Defined.

(** ** The post-processor *)

(** X8: on a text without the literal [<head>] the post-processor changes
    nothing and logs nothing. *)
Theorem enhance_html_output_without_head (p : path) (w : World) (s : string) :
  fs w !! p = Some (Utf8Text s) ->
  PyStr.contains "<head>" s = false ->
  enhance_html_output p w = mkRes (inr PyNone) w [].
Proof.
  intros Hs Hno.
  rewrite enhance_html_output_bound, enhance_html_output_226_run, Hs.
  rewrite (PyStrFacts.replace_absent "<head>" head_block s ltac:(discriminate) Hno).
  rewrite (insert_id _ _ _ Hs). now rewrite set_fs_same.
Qed.

(** The theorem at a page without a head element. *)
Lemma enhance_html_output_without_head_witness :
  enhance_html_output Faults.page (Faults.with_page "<p>Jane Doe</p>") =
    mkRes (inr PyNone) (Faults.with_page "<p>Jane Doe</p>") [].
Proof.
  apply (enhance_html_output_without_head Faults.page
           (Faults.with_page "<p>Jane Doe</p>") "<p>Jane Doe</p>").
  - vm_compute. reflexivity.
  - vm_compute. reflexivity.
Defined.

(** X9: the post-processor is not idempotent.  On a text with the literal
    [<head>] the result is longer by the 832 characters of the head section
    at least and still holds the literal, and a second pass lengthens it
    again. *)
Theorem enhance_html_output_inserts_again (p : path) (w : World) (s : string) :
  fs w !! p = Some (Utf8Text s) ->
  PyStr.contains "<head>" s = true ->
  let w1 := world (enhance_html_output p w) in
  let w2 := world (enhance_html_output p w1) in
  exists s1 s2,
    fs w1 !! p = Some (Utf8Text s1) /\ fs w2 !! p = Some (Utf8Text s2) /\
    PyStr.contains "<head>" s1 = true /\
    String.length s + 832 <= String.length s1 /\
    String.length s1 + 832 <= String.length s2.
Proof.
  intros Hs Hhead. cbn zeta.
  assert (Hgrow : forall t, PyStr.contains "<head>" t = true ->
            PyStr.contains "<head>" (PyStr.replace "<head>" head_block t) = true /\
            String.length t + 832 <= String.length (PyStr.replace "<head>" head_block t)).
  { intros t Ht. split.
    - apply PyStrFacts.contains_occurs.
      apply PyStrFacts.occurs_in_trans with (b := head_block).
      + destruct (PyStrFacts.startswith_split _ _ head_block_starts_with_head) as [post Hp].
        exists "", post. exact Hp.
      + apply PyStrFacts.replace_occurs; [discriminate | exact Ht].
    - pose proof (PyStrLength.replace_length_grows "<head>" head_block t) as Hl.
      rewrite head_block_length in Hl. cbn [String.length] in Hl.
      apply Hl; [discriminate | lia | exact Ht]. }
  rewrite !enhance_html_output_bound.
  rewrite (enhance_html_output_226_run p w), Hs. cbn [world].
  rewrite enhance_html_output_226_run.
  cbn [set_fs fs]. rewrite lookup_insert_eq. cbn [world set_fs fs].
  rewrite !lookup_insert_eq.
  destruct (Hgrow s Hhead) as [Hc1 Hl1].
  destruct (Hgrow _ Hc1) as [_ Hl2].
  eexists _, _. split; [reflexivity |]. split; [reflexivity |].
  split; [exact Hc1 |]. split; [exact Hl1 | exact Hl2].
Qed.

(** The theorem at a page with an empty head element. *)
Lemma enhance_html_output_inserts_again_witness :
  let w1 := world (enhance_html_output Faults.page (Faults.with_page "<head></head>")) in
  let w2 := world (enhance_html_output Faults.page w1) in
  exists s1 s2,
    fs w1 !! Faults.page = Some (Utf8Text s1) /\ fs w2 !! Faults.page = Some (Utf8Text s2) /\
    PyStr.contains "<head>" s1 = true /\
    String.length "<head></head>" + 832 <= String.length s1 /\
    String.length s1 + 832 <= String.length s2.
Proof.
  apply (enhance_html_output_inserts_again Faults.page
           (Faults.with_page "<head></head>") "<head></head>").
  - vm_compute. reflexivity.
  - vm_compute. reflexivity.
Defined.

(** X10: the post-processor never raises and writes to its own file only;
    on a file that is missing or does not decode it changes nothing and
    logs one error; on a text file it logs nothing. *)
Theorem enhance_html_output_never_raises (p : path) (w : World) :
  let r := enhance_html_output p w in
  outcome r = inr PyNone /\
  (forall p', p' <> p -> fs (world r) !! p' = fs w !! p') /\
  ((forall s, fs w !! p <> Some (Utf8Text s)) ->
   world r = w /\
   exists msg, events r = [EvLog ERROR "HTML enhancement failed: {}" [msg]]) /\
  (forall s, fs w !! p = Some (Utf8Text s) -> events r = []).
Proof.
  cbn zeta. rewrite enhance_html_output_bound, enhance_html_output_226_run.
  destruct (fs w !! p) as [[s | raw] |] eqn:Hp; cbn.
  - split; [reflexivity |]. split.
    { intros p' Hp'. now rewrite lookup_insert_ne by congruence. }
    split; [intros H; exfalso; exact (H s eq_refl) | reflexivity].
  - split; [reflexivity |]. split; [reflexivity |].
    split; [intros _; split; [reflexivity | eexists; reflexivity] | discriminate].
  - split; [reflexivity |]. split; [reflexivity |].
    split; [intros _; split; [reflexivity | eexists; reflexivity] | discriminate].
Qed.

(** ** The html-to-docx endpoint *)

Section HtmlEndpointFacts.
Variable E : Env.

(** The run of the handler on an object with an ['html'] member. *)
Lemma convert_html_to_docx_run (req : Request) (w : World) (fields : list (string * json))
    (v : json) :
  get_json req = inr (JObj fields) ->
  assoc "html" fields = Some v ->
  let html := TmpPath (next_tmp w) ".html" in
  let docx := TmpPath (S (next_tmp w)) ".docx" in
  convert_html_to_docx E req w =
    match v with
    | JStr s =>
        let r := html_to_docx E html docx None (staged_html s w) in
        match outcome r, fs (world r) !! docx with
        | inr true, Some _ =>
            mkRes (inr (Response 200 (FileBody docx "resume.docx" docx_mimetype)))
              (world r) ([EvTempFile html; EvTempFile docx] ++ events r)
        | _, _ =>
            mkRes (inr (jsonify_status (error_body "Conversion failed") 500))
              (world r) ([EvTempFile html; EvTempFile docx] ++ events r)
        end
    | _ =>
        mkRes (inr (jsonify_status (error_body "write() argument must be str") 500))
          (mkWorld (<[html := Utf8Text ""]> (fs w)) (S (next_tmp w)) (attempts w)
             (restarts w) (calls w) (clock w))
          [EvTempFile html;
           EvLog ERROR "HTML to DOCX conversion error: {}" ["write() argument must be str"]]
    end.
Proof.
  intros Hj Ha. cbn zeta.
  unfold convert_html_to_docx, try_except, bind, lift. rewrite Hj.
  assert (Ht : truthy (JObj fields) = true) by (destruct fields; [discriminate | reflexivity]).
  rewrite Ht. cbn [negb]. unfold py_in, py_getitem, py_get. rewrite Ha.
  unfold ret. cbn [negb outcome world events app].
  unfold named_temporary_file. cbn [outcome world events app].
  destruct v as [| b | z | s | items | obj];
    try (cbn; reflexivity).
  unfold temp_write, write_text. cbn [outcome world events app set_fs fs next_tmp attempts
    restarts calls clock].
  fold (staged_html s w).
  match goal with
  | |- context [html_to_docx E ?p ?q ?t (staged_html s w)] =>
      rewrite (html_to_docx_template_irrelevant E p q t (staged_html s w));
      destruct (html_to_docx_spec E p q None (staged_html s w)) as (b & Hb & _);
      destruct (html_to_docx E p q None (staged_html s w)) as [o w3 ev3]
  end.
  cbn [outcome world events] in *. subst o.
  unfold path_exists, send_file.
  destruct b; cbn; [| now rewrite app_nil_r].
  destruct (fs w3 !! TmpPath (S (next_tmp w)) ".docx") eqn:Hd; cbn; rewrite ?Hd; cbn;
    now rewrite ?app_nil_r.
Qed.

Lemma convert_html_to_docx_absent (req : Request) (w : World) (fields : list (string * json)) :
  get_json req = inr (JObj fields) ->
  assoc "html" fields = None ->
  convert_html_to_docx E req w =
    mkRes (inr (jsonify_status (error_body "No HTML content provided") 400)) w [].
Proof.
  intros Hj Ha.
  unfold convert_html_to_docx, try_except, bind, lift. rewrite Hj.
  destruct fields as [| kv rest]; [reflexivity |].
  cbn [truthy negb]. unfold py_in. rewrite Ha. reflexivity.
Qed.

Lemma convert_html_to_docx_run_status (req : Request) (w : World)
    (fields : list (string * json)) (v : json) :
  get_json req = inr (JObj fields) ->
  assoc "html" fields = Some v ->
  exists resp, outcome (convert_html_to_docx E req w) = inr resp /\
    (status resp = 200%Z \/ status resp = 500%Z).
Proof.
  intros Hj Ha. rewrite (convert_html_to_docx_run req w fields v Hj Ha).
  destruct v; try (eexists; split; [reflexivity | right; reflexivity]).
  cbn zeta.
  destruct (html_to_docx_spec E (TmpPath (next_tmp w) ".html")
              (TmpPath (S (next_tmp w)) ".docx") None (staged_html s w)) as (b & Hb & _).
  rewrite Hb.
  destruct b; [destruct (fs _ !! _) |];
    eexists; (split; [reflexivity |]); cbn; auto.
Qed.

(** X11: the handler reads the posted object through its ['html'] member
    only: two objects that agree on it get the same run, whatever their
    ['template'] members are. *)
Theorem convert_html_to_docx_reads_only_html (req1 req2 : Request)
    (f1 f2 : list (string * json)) (w : World) :
  get_json req1 = inr (JObj f1) ->
  get_json req2 = inr (JObj f2) ->
  assoc "html" f1 = assoc "html" f2 ->
  convert_html_to_docx E req1 w = convert_html_to_docx E req2 w.
Proof.
  intros H1 H2 Heq.
  destruct (assoc "html" f2) as [v |] eqn:Ha.
  - rewrite (convert_html_to_docx_run req1 w f1 v H1 Heq).
    rewrite (convert_html_to_docx_run req2 w f2 v H2 Ha). reflexivity.
  - rewrite (convert_html_to_docx_absent req1 w f1 H1 Heq).
    rewrite (convert_html_to_docx_absent req2 w f2 H2 Ha). reflexivity.
Qed.

(** X12: the answer is 400 exactly when the body parsed and is falsy or
    does not contain ['html']; the run then did nothing else.  A body that
    did not parse is answered 500 with the parser's message. *)
Theorem convert_html_to_docx_bad_request (req : Request) (w : World) :
  let r := convert_html_to_docx E req w in
  exists resp, outcome r = inr resp /\
    (status resp = 400%Z <->
     exists data, get_json req = inr data /\
       (truthy data = false \/ py_in "html" data = inr false)) /\
    (status resp = 400%Z ->
     resp = jsonify_status (error_body "No HTML content provided") 400 /\
     world r = w /\ events r = []) /\
    (forall e, get_json req = inl e ->
     resp = jsonify_status (error_body (exn_str e)) 500 /\ world r = w).
Proof.
  cbn zeta.
  destruct (get_json req) as [e | data] eqn:Hj.
  { unfold convert_html_to_docx, try_except, bind, lift. rewrite Hj. cbn.
    eexists. split; [reflexivity |]. split; [| split; [discriminate |]].
    - split; [discriminate | intros (data & [=] & _)].
    - intros e' [= <-]. split; reflexivity. }
  destruct data as [| b | z | s | items | fields].
  6: { destruct (assoc "html" fields) as [v |] eqn:Ha.
       - destruct (convert_html_to_docx_run_status req w fields v Hj Ha) as (resp & Hr & Hs).
         exists resp. split; [exact Hr |].
         split; [| split; [intros H4; lia | discriminate]].
         split; [intros H4; lia |].
         intros (data & [= <-] & [Ht | Hin]).
         + destruct fields; [discriminate Ha | discriminate Ht].
         + cbn in Hin. rewrite Ha in Hin. discriminate.
       - rewrite (convert_html_to_docx_absent req w fields Hj Ha). cbn.
         eexists. split; [reflexivity |].
         split; [| split; [intros _; repeat split | discriminate]].
         split; [| reflexivity]. intros _. eexists. split; [reflexivity |].
         right. cbn. now rewrite Ha. }
  all: unfold convert_html_to_docx, try_except, bind, lift; rewrite Hj; cbn.
  - eexists. split; [reflexivity |].
    split; [| split; [intros _; repeat split | discriminate]].
    split; [| reflexivity]. intros _. eexists. split; [reflexivity |]. now left.
  - destruct b; cbn.
    + eexists. split; [reflexivity |]. split; [| split; discriminate].
      split; [discriminate |]. intros (data & [= <-] & [Ht | Hin]); discriminate.
    + eexists. split; [reflexivity |].
      split; [| split; [intros _; repeat split | discriminate]].
      split; [| reflexivity]. intros _. eexists. split; [reflexivity |]. now left.
  - destruct (z =? 0)%Z eqn:Hz; cbn.
    + eexists. split; [reflexivity |].
      split; [| split; [intros _; repeat split | discriminate]].
      split; [| reflexivity]. intros _. eexists. split; [reflexivity |]. left. cbn.
      now rewrite Hz.
    + eexists. split; [reflexivity |]. split; [| split; discriminate].
      split; [discriminate |]. intros (data & [= <-] & [Ht | Hin]); [| discriminate].
      cbn in Ht. rewrite Hz in Ht. discriminate.
  - destruct (String.eqb s "") eqn:Hs; cbn.
    + eexists. split; [reflexivity |].
      split; [| split; [intros _; repeat split | discriminate]].
      split; [| reflexivity]. intros _. eexists. split; [reflexivity |]. left. cbn.
      now rewrite Hs.
    + destruct (PyStr.contains "html" s) eqn:Hc; cbn.
      * eexists. split; [reflexivity |]. split; [| split; discriminate].
        split; [discriminate |]. intros (data & [= <-] & [Ht | Hin]).
        -- cbn in Ht. rewrite Hs in Ht. discriminate.
        -- cbn in Hin. congruence.
      * eexists. split; [reflexivity |].
        split; [| split; [intros _; repeat split | discriminate]].
        split; [| reflexivity]. intros _. eexists. split; [reflexivity |]. right. cbn.
        now rewrite Hc.
  - destruct items as [| x items]; cbn [truthy negb].
    + cbn. eexists. split; [reflexivity |].
      split; [| split; [intros _; repeat split | discriminate]].
      split; [| reflexivity]. intros _. eexists. split; [reflexivity |]. now left.
    + unfold py_in. destruct (existsb (is_str "html") (x :: items)) eqn:Hc; cbn.
      * eexists. split; [reflexivity |]. split; [| split; discriminate].
        split; [discriminate |]. intros (data & [= <-] & [Ht | Hin]); [discriminate |].
        cbn in Hin. cbn in Hc. congruence.
      * eexists. split; [reflexivity |].
        split; [| split; [intros _; repeat split | discriminate]].
        split; [| reflexivity]. intros _. eexists. split; [reflexivity |]. right.
        cbn. cbn in Hc. now rewrite Hc.
Qed.


(** X14: an ['html'] member that is not a string is answered 500 once the
    first temporary file exists, which is left behind empty; no remote
    call is made. *)
Theorem convert_html_to_docx_not_text (req : Request) (w : World)
    (fields : list (string * json)) (v : json) :
  get_json req = inr (JObj fields) ->
  assoc "html" fields = Some v ->
  (forall s, v <> JStr s) ->
  let html := TmpPath (next_tmp w) ".html" in
  let r := convert_html_to_docx E req w in
  (exists resp, returned r resp /\ is_error_response 500 resp) /\
  fs (world r) !! html = Some (Utf8Text "") /\
  next_tmp (world r) = S (next_tmp w) /\
  (forall c ok, ~ In (EvCall c ok) (events r)).
Proof.
  intros Hj Ha Hv. cbn zeta. unfold returned.
  rewrite (convert_html_to_docx_run req w fields v Hj Ha).
  destruct v; try (now (exfalso; eapply Hv)).
  all: cbn;
    (split; [eexists; split; [reflexivity | split; [reflexivity | eexists; reflexivity]] |]);
    (split; [apply lookup_insert_eq |]);
    (split; [reflexivity |]); intros c ok [H | [H | []]]; discriminate.
Qed.
End HtmlEndpointFacts.

(** The theorem at two requests that differ in their template. *)
Lemma convert_html_to_docx_reads_only_html_witness :
  convert_html_to_docx (Scenario.env Scenario.healthy) Scenario.html_request Scenario.world0 =
  convert_html_to_docx (Scenario.env Scenario.healthy) Faults.templated_request
    Scenario.world0.
Proof.
  apply (convert_html_to_docx_reads_only_html (Scenario.env Scenario.healthy)
           Scenario.html_request Faults.templated_request
           [("html", JStr "<p>Jane Doe</p>")]
           [("template", JStr "modern"); ("html", JStr "<p>Jane Doe</p>")]
           Scenario.world0).
  - reflexivity.
  - reflexivity.
  - reflexivity.
Defined.


(** The theorem at a request whose ['html'] member is a number. *)
Lemma convert_html_to_docx_not_text_witness :
  let r := convert_html_to_docx (Scenario.env Scenario.healthy) Faults.numeric_request
             Scenario.world0 in
  (exists resp, returned r resp /\ is_error_response 500 resp) /\
  fs (world r) !! TmpPath 0 ".html" = Some (Utf8Text "") /\
  next_tmp (world r) = 1 /\
  (forall c ok, ~ In (EvCall c ok) (events r)).
Proof.
  refine (convert_html_to_docx_not_text (Scenario.env Scenario.healthy)
            Faults.numeric_request Scenario.world0 [("html", JNum 3)] (JNum 3) _ _ _).
  - reflexivity.
  - reflexivity.
  - intros s. discriminate.
Defined.

(** ** The files after a request *)

Lemma fresh_above_cleaned (f : FileStorage) (w w3 : World) :
  fresh_above w ->
  next_tmp w3 = S (S (next_tmp w)) ->
  (forall p', p' <> TmpPath (S (next_tmp w)) ".html" ->
     fs w3 !! p' = fs (staged f w) !! p') ->
  let w' := cleaned (TmpPath (next_tmp w) ".docx") (TmpPath (S (next_tmp w)) ".html") w3 in
  fs w' = fs w /\ next_tmp w' = S (S (next_tmp w)) /\ fresh_above w'.
Proof.
  intros Hfresh Htmp Hframe. cbn zeta.
  assert (Hfs : fs (cleaned (TmpPath (next_tmp w) ".docx")
                      (TmpPath (S (next_tmp w)) ".html") w3) = fs w).
  { apply map_eq. intros p. cbn.
    destruct (decide (p = TmpPath (S (next_tmp w)) ".html")) as [-> | Hh].
    { rewrite lookup_delete_eq. symmetry. apply Hfresh. lia. }
    rewrite lookup_delete_ne by congruence.
    destruct (decide (p = TmpPath (next_tmp w) ".docx")) as [-> | Hd].
    { rewrite lookup_delete_eq. symmetry. apply Hfresh. lia. }
    rewrite lookup_delete_ne by congruence.
    rewrite Hframe by assumption. cbn.
    rewrite !lookup_insert_ne by congruence. reflexivity. }
  split; [exact Hfs |]. split; [exact Htmp |].
  intros n sfx Hn. rewrite Hfs. apply Hfresh. cbn in Hn. lia.
Qed.

Lemma fresh_above_world0 : fresh_above Scenario.world0.
Proof. intros n sfx _. apply lookup_empty. Qed.

Section RestoreFacts.
Variable E : Env.

(** X15: a 200 answer of the docx-to-html endpoint leaves the files as the
    request found them, two serial numbers later: both temporary files are
    gone again and all six remote calls returned. *)
Theorem convert_docx_to_html_restores_files (req : Request) (w : World) (resp : response) :
  fresh_above w ->
  let docx := TmpPath (next_tmp w) ".docx" in
  let html := TmpPath (S (next_tmp w)) ".html" in
  let r := convert_docx_to_html E req w in
  returned r resp ->
  status resp = 200%Z ->
  fs (world r) = fs w /\
  next_tmp (world r) = S (S (next_tmp w)) /\
  fresh_above (world r) /\
  all_completed (docx_to_html_calls docx html) r /\
  count is_temp_file (events r) = 2 /\
  count is_unlink (events r) = 2.
Proof.
  intros Hfresh. cbn zeta. unfold returned.
  destruct (files_get "file" (files req)) as [f |] eqn:Hf.
  2: { unfold convert_docx_to_html, try_except, bind, ret. rewrite Hf. cbn.
       intros [= <-]. discriminate. }
  destruct (String.eqb (filename f) "") eqn:Hn.
  { unfold convert_docx_to_html, try_except, bind, ret. rewrite Hf, Hn. cbn.
    intros [= <-]. discriminate. }
  apply String.eqb_neq in Hn.
  rewrite (convert_docx_to_html_run E req w f Hf Hn).
  destruct (docx_to_html_spec E (TmpPath (next_tmp w) ".docx")
              (TmpPath (S (next_tmp w)) ".html") (staged f w))
    as (b & Hb & Htmp & Hframe & Hfile & _ & _ & Hall & _).
  destruct (docx_to_html E _ _ (staged f w)) as [o w3 ev3].
  cbn [outcome world events] in *. subst o.
  destruct b;
    [destruct (fs w3 !! TmpPath (S (next_tmp w)) ".html") as [[h | raw] |] eqn:Hh |];
    cbn [outcome world events]; intros [= <-]; try discriminate.
  intros _.
  destruct (fresh_above_cleaned f w w3 Hfresh Htmp Hframe) as (H1 & H2 & H3).
  split; [exact H1 |]. split; [exact H2 |]. split; [exact H3 |].
  destruct Hall as [Hall _]. specialize (Hall eq_refl).
  destruct (file_events_count _ Hfile) as [Hz1 Hz2].
  split; [| split].
  - intros c Hc. specialize (Hall c Hc). unfold completed in *. cbn.
    right. right. apply in_or_app. now left.
  - cbn. rewrite count_app, Hz1. reflexivity.
  - cbn. rewrite count_app, Hz2. reflexivity.
Qed.

Lemma batch_loop_restores (uploads : list FileStorage) (results : list json) (w : World)
    (rs : list json) :
  fresh_above w ->
  let r := batch_loop E uploads results w in
  outcome r = inr rs ->
  fs (world r) = fs w /\
  next_tmp (world r) = next_tmp w + 2 * List.length uploads /\
  fresh_above (world r) /\
  count is_temp_file (events r) = 2 * List.length uploads /\
  count is_unlink (events r) = 2 * List.length uploads.
Proof.
  revert results w. induction uploads as [| f rest IH]; intros results w Hfresh.
  - cbn. intros _. repeat split; try lia. exact Hfresh.
  - cbn zeta. rewrite batch_loop_step. cbn zeta.
    destruct (docx_to_html_spec E (TmpPath (next_tmp w) ".docx")
                (TmpPath (S (next_tmp w)) ".html") (staged f w))
      as (b & Hb & Htmp & Hframe & Hfile & _).
    destruct (docx_to_html E _ _ (staged f w)) as [o w3 ev3].
    cbn [outcome world events] in *. subst o.
    destruct (fresh_above_cleaned f w w3 Hfresh Htmp Hframe) as (H1 & H2 & H3).
    destruct (file_events_count _ Hfile) as [Hz1 Hz2].
    assert (Hcont : forall entry,
      let r' := batch_loop E rest (results ++ [entry])
                  (cleaned (TmpPath (next_tmp w) ".docx")
                     (TmpPath (S (next_tmp w)) ".html") w3) in
      let r := mkRes (outcome r') (world r')
                 ([EvTempFile (TmpPath (next_tmp w) ".docx");
                   EvTempFile (TmpPath (S (next_tmp w)) ".html")] ++ ev3 ++
                  [EvUnlink (TmpPath (next_tmp w) ".docx");
                   EvUnlink (TmpPath (S (next_tmp w)) ".html")] ++ events r') in
      outcome r = inr rs ->
      fs (world r) = fs w /\
      next_tmp (world r) = next_tmp w + 2 * List.length (f :: rest) /\
      fresh_above (world r) /\
      count is_temp_file (events r) = 2 * List.length (f :: rest) /\
      count is_unlink (events r) = 2 * List.length (f :: rest)).
    { intros entry. cbn zeta. cbn [outcome world events]. intros Ho.
      destruct (IH (results ++ [entry]) _ H3 Ho) as (I1 & I2 & I3 & I4 & I5).
      split; [congruence |]. split; [rewrite I2, H2; cbn [List.length]; lia |].
      split; [exact I3 |].
      cbn [app count is_temp_file is_unlink].
      rewrite !count_app. cbn [count is_temp_file is_unlink].
      rewrite Hz1, Hz2, I4, I5. cbn [List.length]. split; lia. }
    destruct b; destruct (fs w3 !! TmpPath (S (next_tmp w)) ".html") as [[h | raw] |];
      first [ apply Hcont | cbn; discriminate ].
Qed.

(** X16: a 200 answer of the batch endpoint leaves the files as the request
    found them, two serial numbers per upload later: for every upload two
    temporary files were created and two deleted. *)
Theorem batch_convert_restores_files (req : Request) (w : World) (resp : response) :
  fresh_above w ->
  let n := List.length (files_getlist "files" (files req)) in
  let r := batch_convert E req w in
  returned r resp ->
  status resp = 200%Z ->
  fs (world r) = fs w /\
  next_tmp (world r) = next_tmp w + 2 * n /\
  fresh_above (world r) /\
  count is_temp_file (events r) = 2 * n /\
  count is_unlink (events r) = 2 * n.
Proof.
  intros Hfresh. cbn zeta. unfold returned, batch_convert, try_except.
  destruct (files_getlist "files" (files req)) as [| f rest] eqn:Hup.
  { cbn. intros [= <-]. discriminate. }
  unfold bind.
  assert (H := fun rs => batch_loop_restores (f :: rest) [] w rs Hfresh).
  cbn zeta in H.
  destruct (batch_loop E (f :: rest) [] w) as [[e | rs] w' ev'];
    cbn [outcome world events] in *.
  { cbn. intros [= <-]. discriminate. }
  cbn. intros _ _. rewrite app_nil_r. exact (H rs eq_refl).
Qed.

Lemma convert_html_to_docx_status (req : Request) (w : World) :
  let r := convert_html_to_docx E req w in
  exists resp, outcome r = inr resp /\
    (status resp = 200%Z \/ status resp = 400%Z \/ status resp = 500%Z) /\
    (status resp = 400%Z -> world r = w /\ events r = []).
Proof.
  cbn zeta.
  unfold convert_html_to_docx, try_except, bind, lift, temp_write, named_temporary_file,
    write_text, raise, ret, log, emit, send_file, path_exists.
  repeat (first [ progress cbn | use_html_to_docx_spec | case_step ]).
  all: eexists; (split; [reflexivity |]); (split; [cbn; auto |]); cbn.
  all: first [ discriminate | intros _; split; reflexivity ].
Qed.

Lemma convert_docx_to_html_status (req : Request) (w : World) :
  exists resp, outcome (convert_docx_to_html E req w) = inr resp /\
    (status resp = 200%Z \/ status resp = 400%Z \/ status resp = 500%Z).
Proof.
  destruct (files_get "file" (files req)) as [f |] eqn:Hf.
  2: { unfold convert_docx_to_html, try_except, bind, ret. rewrite Hf. cbn.
       eexists. split; [reflexivity | cbn; auto]. }
  destruct (String.eqb (filename f) "") eqn:Hn.
  { unfold convert_docx_to_html, try_except, bind, ret. rewrite Hf, Hn. cbn.
    eexists. split; [reflexivity | cbn; auto]. }
  apply String.eqb_neq in Hn.
  rewrite (convert_docx_to_html_run E req w f Hf Hn).
  destruct (docx_to_html_spec E (TmpPath (next_tmp w) ".docx")
              (TmpPath (S (next_tmp w)) ".html") (staged f w)) as (b & Hb & _).
  rewrite Hb.
  destruct b; [destruct (fs _ !! _) as [[h | raw] |] |];
    eexists; (split; [reflexivity | cbn; auto]).
Qed.

Lemma batch_convert_status (req : Request) (w : World) :
  exists resp, outcome (batch_convert E req w) = inr resp /\
    (status resp = 200%Z \/ status resp = 400%Z \/ status resp = 500%Z).
Proof.
  unfold batch_convert, try_except.
  destruct (files_getlist "files" (files req)) as [| f rest].
  { cbn. eexists. split; [reflexivity | cbn; auto]. }
  unfold bind.
  destruct (batch_loop E (f :: rest) [] w) as [[e | rs] w' ev']; cbn;
    eexists; (split; [reflexivity | cbn; auto]).
Qed.

(** X17: whatever the request and the office suite do, the status of the
    response of an endpoint is 200, 400 or 500, and a 400 answer comes
    before any temporary file or remote call. *)
Theorem handlers_status_codes (ep : endpoint) (req : Request) (w : World) :
  let r := handle E ep req w in
  exists resp, returned r resp /\
    In (status resp) [200%Z; 400%Z; 500%Z] /\
    (status resp = 400%Z -> world r = w /\ events r = []).
Proof.
  cbn zeta. unfold returned.
  destruct ep; cbn [handle].
  - eexists. split; [reflexivity |]. split; [cbn; auto | discriminate].
  - destruct (convert_docx_to_html_status req w) as (resp & Hr & Hs).
    exists resp. split; [exact Hr |]. split; [cbn; intuition |].
    intros H4. revert Hr.
    destruct (files_get "file" (files req)) as [f |] eqn:Hf.
    2: { unfold convert_docx_to_html, try_except, bind, ret. rewrite Hf. cbn.
         intros _. split; reflexivity. }
    destruct (String.eqb (filename f) "") eqn:Hn.
    { unfold convert_docx_to_html, try_except, bind, ret. rewrite Hf, Hn. cbn.
      intros _. split; reflexivity. }
    apply String.eqb_neq in Hn.
    rewrite (convert_docx_to_html_run E req w f Hf Hn).
    destruct (docx_to_html_spec E (TmpPath (next_tmp w) ".docx")
                (TmpPath (S (next_tmp w)) ".html") (staged f w)) as (b & Hb & _).
    rewrite Hb.
    destruct b; [destruct (fs _ !! _) as [[h | raw] |] |];
      cbn [outcome]; intros [= <-]; discriminate H4.
  - destruct (convert_html_to_docx_status req w) as (resp & Hr & Hs & H4).
    exists resp. split; [exact Hr |]. split; [cbn; intuition | exact H4].
  - destruct (batch_convert_spec E req w) as (resp & Hr & Hnone & Hexc & Hok & _).
    destruct (batch_convert_status req w) as (resp' & Hr' & Hs).
    cbn zeta in Hr. rewrite Hr in Hr'. injection Hr' as <-.
    exists resp. split; [exact Hr |]. split; [cbn; intuition |].
    intros H4.
    destruct (files_getlist "files" (files req)) as [| f rest] eqn:Hup.
    + destruct (Hnone eq_refl) as (_ & Hev & Hw). split; assumption.
    + exfalso.
      destruct (exception_caught (batch_convert E req w)) eqn:Hc.
      * destruct (Hexc eq_refl) as [H5 _]. lia.
      * destruct (Hok ltac:(discriminate) eq_refl) as [H2 _]. lia.
Qed.
End RestoreFacts.

(** The theorem at a request that converts. *)
Lemma convert_docx_to_html_restores_files_witness :
  let r := convert_docx_to_html (Scenario.env Scenario.healthy) Scenario.docx_request
             Scenario.world0 in
  fs (world r) = fs Scenario.world0 /\
  next_tmp (world r) = 2 /\
  fresh_above (world r) /\
  all_completed (docx_to_html_calls (TmpPath 0 ".docx") (TmpPath 1 ".html")) r /\
  count is_temp_file (events r) = 2 /\
  count is_unlink (events r) = 2.
Proof.
  refine (convert_docx_to_html_restores_files (Scenario.env Scenario.healthy)
            Scenario.docx_request Scenario.world0 _ fresh_above_world0 _ _).
  - vm_compute. reflexivity.
  - reflexivity.
Defined.

(** The theorem at a batch of two files that convert. *)
Lemma batch_convert_restores_files_witness :
  let r := batch_convert (Scenario.env Scenario.healthy) Scenario.batch_request
             Scenario.world0 in
  fs (world r) = fs Scenario.world0 /\
  next_tmp (world r) = 4 /\
  fresh_above (world r) /\
  count is_temp_file (events r) = 4 /\
  count is_unlink (events r) = 4.
Proof.
  refine (batch_convert_restores_files (Scenario.env Scenario.healthy)
            Scenario.batch_request Scenario.world0 _ fresh_above_world0 _ _).
  - vm_compute. reflexivity.
  - reflexivity.
Defined.

(** ** The connection test scripts *)

